(** * Event-handler mappings of the governance subgraph and of the
      MasterChef reward mapping: a shallow embedding and its properties.

    The handlers of [ens-governance] (Transfer, DelegateVotesChanged,
    proposal lifecycle, VoteCast) and of the biswap MasterChef mapping
    (Deposit, Withdraw, EmergencyWithdraw) are written as functions in a
    small state-and-error monad over the entity store and the log sink. *)

From stdpp Require Import base option gmap strings fin_maps pretty.

Local Open Scope string_scope.
Local Open Scope list_scope.
Local Open Scope Z_scope.

(** ** Scalars of the host runtime *)

(** [BigInt] is an arbitrary-precision signed integer. *)
Abbreviation BigInt := Z (only parsing).

(** An [Address] is carried by its hexadecimal rendering, which is what
    every handler takes of it. *)
Definition Address : Type := string.
Definition toHexString (a : Address) : string := a.

(** [BigInt.toString()] : the decimal rendering. *)
Definition toString (n : BigInt) : string := pretty n.

(** Modelled from the spec: a [BigDecimal] is an integer together with a
    number of decimal places; [helpers.toDecimal] is missing from the
    sources and "recomputes derived decimals from raw integers using a
    fixed scaling factor (18 decimal places)". *)
Record BigDecimal : Type := { unscaled : Z; decimals : Z }.

Definition toDecimal (raw : BigInt) : BigDecimal :=
  {| unscaled := raw; decimals := 18 |}.

Definition BIGDECIMAL_ZERO : BigDecimal := {| unscaled := 0; decimals := 0 |}.

(** Modelled from the spec: the constants of [helpers] that the handlers
    import; the zero address is the 20-byte all-zero address, the
    governance singleton is "keyed by a fixed name". *)
Definition BIGINT_ZERO : BigInt := 0.
Definition BIGINT_ONE : BigInt := 1.
Definition ZERO_ADDRESS : string := "0x0000000000000000000000000000000000000000".
Definition GOVERNANCE_NAME : string := "Governance".

(** [i32] arithmetic of AssemblyScript ([Int] fields of the schema) wraps
    around at 32 bits. *)
Definition wrap_i32 (z : Z) : Z := (z + 2 ^ 31) mod 2 ^ 32 - 2 ^ 31.
Definition i32_add (a b : Z) : Z := wrap_i32 (a + b).
Definition i32_sub (a b : Z) : Z := wrap_i32 (a - b).

(** ** Entities of the schema

    Modelled from the spec: the classes of [generated/schema] are not in
    the sources. Each entity is a record with the fields of section 3 of
    the specification; [new] is the store's [create], "a new entity with
    default field values" (zero for numbers, absent for nullable
    references). *)

Inductive ProposalState : Type :=
  | PROPOSAL_STATE_PENDING
  | PROPOSAL_STATE_ACTIVE
  | PROPOSAL_STATE_CANCELED
  | PROPOSAL_STATE_QUEUED
  | PROPOSAL_STATE_EXECUTED.

Global Instance ProposalState_eq_dec : EqDecision ProposalState.
Proof. solve_decision. Defined.

Module TokenHolder.
Record t : Type := {
    id : string;
    tokenBalanceRaw : BigInt;
    tokenBalance : BigDecimal;
    totalTokensHeldRaw : BigInt;
    totalTokensHeld : BigDecimal;
    delegate : option string
  }.

Definition new (i : string) : t :=
  {| id := i; tokenBalanceRaw := 0; tokenBalance := BIGDECIMAL_ZERO;
     totalTokensHeldRaw := 0; totalTokensHeld := BIGDECIMAL_ZERO;
     delegate := None |}.

Definition set_tokenBalanceRaw (v : BigInt) (h : t) : t :=
  {| id := id h; tokenBalanceRaw := v; tokenBalance := tokenBalance h;
     totalTokensHeldRaw := totalTokensHeldRaw h;
     totalTokensHeld := totalTokensHeld h; delegate := delegate h |}.

Definition set_tokenBalance (v : BigDecimal) (h : t) : t :=
  {| id := id h; tokenBalanceRaw := tokenBalanceRaw h; tokenBalance := v;
     totalTokensHeldRaw := totalTokensHeldRaw h;
     totalTokensHeld := totalTokensHeld h; delegate := delegate h |}.

Definition set_totalTokensHeldRaw (v : BigInt) (h : t) : t :=
  {| id := id h; tokenBalanceRaw := tokenBalanceRaw h;
     tokenBalance := tokenBalance h; totalTokensHeldRaw := v;
     totalTokensHeld := totalTokensHeld h; delegate := delegate h |}.

Definition set_totalTokensHeld (v : BigDecimal) (h : t) : t :=
  {| id := id h; tokenBalanceRaw := tokenBalanceRaw h;
     tokenBalance := tokenBalance h;
     totalTokensHeldRaw := totalTokensHeldRaw h;
     totalTokensHeld := v; delegate := delegate h |}.

Definition set_delegate (v : option string) (h : t) : t :=
  {| id := id h; tokenBalanceRaw := tokenBalanceRaw h;
     tokenBalance := tokenBalance h;
     totalTokensHeldRaw := totalTokensHeldRaw h;
     totalTokensHeld := totalTokensHeld h; delegate := v |}.
End TokenHolder.

Module Delegate.
Record t : Type := {
    id : string;
    delegatedVotesRaw : BigInt;
    delegatedVotes : BigDecimal;
    tokenHoldersRepresentedAmount : Z;
    numberVotes : Z
  }.

Definition new (i : string) : t :=
  {| id := i; delegatedVotesRaw := 0; delegatedVotes := BIGDECIMAL_ZERO;
     tokenHoldersRepresentedAmount := 0; numberVotes := 0 |}.

Definition set_delegatedVotesRaw (v : BigInt) (d : t) : t :=
  {| id := id d; delegatedVotesRaw := v; delegatedVotes := delegatedVotes d;
     tokenHoldersRepresentedAmount := tokenHoldersRepresentedAmount d;
     numberVotes := numberVotes d |}.

Definition set_delegatedVotes (v : BigDecimal) (d : t) : t :=
  {| id := id d; delegatedVotesRaw := delegatedVotesRaw d;
     delegatedVotes := v;
     tokenHoldersRepresentedAmount := tokenHoldersRepresentedAmount d;
     numberVotes := numberVotes d |}.

Definition set_tokenHoldersRepresentedAmount (v : Z) (d : t) : t :=
  {| id := id d; delegatedVotesRaw := delegatedVotesRaw d;
     delegatedVotes := delegatedVotes d;
     tokenHoldersRepresentedAmount := v; numberVotes := numberVotes d |}.

Definition set_numberVotes (v : Z) (d : t) : t :=
  {| id := id d; delegatedVotesRaw := delegatedVotesRaw d;
     delegatedVotes := delegatedVotes d;
     tokenHoldersRepresentedAmount := tokenHoldersRepresentedAmount d;
     numberVotes := v |}.
End Delegate.

Module Governance.
Record t : Type := {
    id : string;
    proposals : BigInt;
    proposalsCanceled : BigInt;
    proposalsQueued : BigInt;
    proposalsExecuted : BigInt;
    currentDelegates : BigInt;
    currentTokenHolders : BigInt;
    delegatedVotesRaw : BigInt;
    delegatedVotes : BigDecimal;
    quorumNumerator : BigInt
  }.

Definition new (i : string) : t :=
  {| id := i; proposals := 0; proposalsCanceled := 0; proposalsQueued := 0;
     proposalsExecuted := 0; currentDelegates := 0; currentTokenHolders := 0;
     delegatedVotesRaw := 0; delegatedVotes := BIGDECIMAL_ZERO;
     quorumNumerator := 0 |}.

Definition set_proposals (v : BigInt) (g : t) : t :=
  {| id := id g; proposals := v; proposalsCanceled := proposalsCanceled g;
     proposalsQueued := proposalsQueued g;
     proposalsExecuted := proposalsExecuted g;
     currentDelegates := currentDelegates g;
     currentTokenHolders := currentTokenHolders g;
     delegatedVotesRaw := delegatedVotesRaw g;
     delegatedVotes := delegatedVotes g;
     quorumNumerator := quorumNumerator g |}.

Definition set_proposalsCanceled (v : BigInt) (g : t) : t :=
  {| id := id g; proposals := proposals g; proposalsCanceled := v;
     proposalsQueued := proposalsQueued g;
     proposalsExecuted := proposalsExecuted g;
     currentDelegates := currentDelegates g;
     currentTokenHolders := currentTokenHolders g;
     delegatedVotesRaw := delegatedVotesRaw g;
     delegatedVotes := delegatedVotes g;
     quorumNumerator := quorumNumerator g |}.

Definition set_proposalsQueued (v : BigInt) (g : t) : t :=
  {| id := id g; proposals := proposals g;
     proposalsCanceled := proposalsCanceled g; proposalsQueued := v;
     proposalsExecuted := proposalsExecuted g;
     currentDelegates := currentDelegates g;
     currentTokenHolders := currentTokenHolders g;
     delegatedVotesRaw := delegatedVotesRaw g;
     delegatedVotes := delegatedVotes g;
     quorumNumerator := quorumNumerator g |}.

Definition set_proposalsExecuted (v : BigInt) (g : t) : t :=
  {| id := id g; proposals := proposals g;
     proposalsCanceled := proposalsCanceled g;
     proposalsQueued := proposalsQueued g; proposalsExecuted := v;
     currentDelegates := currentDelegates g;
     currentTokenHolders := currentTokenHolders g;
     delegatedVotesRaw := delegatedVotesRaw g;
     delegatedVotes := delegatedVotes g;
     quorumNumerator := quorumNumerator g |}.

Definition set_currentDelegates (v : BigInt) (g : t) : t :=
  {| id := id g; proposals := proposals g;
     proposalsCanceled := proposalsCanceled g;
     proposalsQueued := proposalsQueued g;
     proposalsExecuted := proposalsExecuted g; currentDelegates := v;
     currentTokenHolders := currentTokenHolders g;
     delegatedVotesRaw := delegatedVotesRaw g;
     delegatedVotes := delegatedVotes g;
     quorumNumerator := quorumNumerator g |}.

Definition set_currentTokenHolders (v : BigInt) (g : t) : t :=
  {| id := id g; proposals := proposals g;
     proposalsCanceled := proposalsCanceled g;
     proposalsQueued := proposalsQueued g;
     proposalsExecuted := proposalsExecuted g;
     currentDelegates := currentDelegates g; currentTokenHolders := v;
     delegatedVotesRaw := delegatedVotesRaw g;
     delegatedVotes := delegatedVotes g;
     quorumNumerator := quorumNumerator g |}.

Definition set_delegatedVotesRaw (v : BigInt) (g : t) : t :=
  {| id := id g; proposals := proposals g;
     proposalsCanceled := proposalsCanceled g;
     proposalsQueued := proposalsQueued g;
     proposalsExecuted := proposalsExecuted g;
     currentDelegates := currentDelegates g;
     currentTokenHolders := currentTokenHolders g; delegatedVotesRaw := v;
     delegatedVotes := delegatedVotes g;
     quorumNumerator := quorumNumerator g |}.

Definition set_delegatedVotes (v : BigDecimal) (g : t) : t :=
  {| id := id g; proposals := proposals g;
     proposalsCanceled := proposalsCanceled g;
     proposalsQueued := proposalsQueued g;
     proposalsExecuted := proposalsExecuted g;
     currentDelegates := currentDelegates g;
     currentTokenHolders := currentTokenHolders g;
     delegatedVotesRaw := delegatedVotesRaw g; delegatedVotes := v;
     quorumNumerator := quorumNumerator g |}.

Definition set_quorumNumerator (v : BigInt) (g : t) : t :=
  {| id := id g; proposals := proposals g;
     proposalsCanceled := proposalsCanceled g;
     proposalsQueued := proposalsQueued g;
     proposalsExecuted := proposalsExecuted g;
     currentDelegates := currentDelegates g;
     currentTokenHolders := currentTokenHolders g;
     delegatedVotesRaw := delegatedVotesRaw g;
     delegatedVotes := delegatedVotes g; quorumNumerator := v |}.
End Governance.

Module Proposal.
Record t : Type := {
    id : string;
    proposer : option string;
    targets : list string;
    values : list BigInt;
    signatures : list string;
    calldatas : list string;
    creationBlock : BigInt;
    creationTime : BigInt;
    startBlock : BigInt;
    endBlock : BigInt;
    description : string;
    state : option ProposalState;
    executionETA : option BigInt;
    executionBlock : option BigInt;
    executionTime : option BigInt;
    cancellationBlock : option BigInt;
    cancellationTime : option BigInt;
    againstVotes : BigInt;
    forVotes : BigInt;
    abstainVotes : BigInt
  }.

Definition new (i : string) : t :=
  {| id := i; proposer := None; targets := []; values := [];
     signatures := []; calldatas := []; creationBlock := 0;
     creationTime := 0; startBlock := 0; endBlock := 0; description := "";
     state := None; executionETA := None; executionBlock := None;
     executionTime := None; cancellationBlock := None;
     cancellationTime := None; againstVotes := 0; forVotes := 0;
     abstainVotes := 0 |}.

Definition set_state (v : option ProposalState) (p : t) : t :=
  {| id := id p; proposer := proposer p; targets := targets p;
     values := values p; signatures := signatures p;
     calldatas := calldatas p; creationBlock := creationBlock p;
     creationTime := creationTime p; startBlock := startBlock p;
     endBlock := endBlock p; description := description p; state := v;
     executionETA := executionETA p; executionBlock := executionBlock p;
     executionTime := executionTime p;
     cancellationBlock := cancellationBlock p;
     cancellationTime := cancellationTime p;
     againstVotes := againstVotes p; forVotes := forVotes p;
     abstainVotes := abstainVotes p |}.

Definition set_executionETA (v : option BigInt) (p : t) : t :=
  {| id := id p; proposer := proposer p; targets := targets p;
     values := values p; signatures := signatures p;
     calldatas := calldatas p; creationBlock := creationBlock p;
     creationTime := creationTime p; startBlock := startBlock p;
     endBlock := endBlock p; description := description p;
     state := state p; executionETA := v;
     executionBlock := executionBlock p; executionTime := executionTime p;
     cancellationBlock := cancellationBlock p;
     cancellationTime := cancellationTime p;
     againstVotes := againstVotes p; forVotes := forVotes p;
     abstainVotes := abstainVotes p |}.

Definition set_execution (blk tm : option BigInt) (p : t) : t :=
  {| id := id p; proposer := proposer p; targets := targets p;
     values := values p; signatures := signatures p;
     calldatas := calldatas p; creationBlock := creationBlock p;
     creationTime := creationTime p; startBlock := startBlock p;
     endBlock := endBlock p; description := description p;
     state := state p; executionETA := executionETA p;
     executionBlock := blk; executionTime := tm;
     cancellationBlock := cancellationBlock p;
     cancellationTime := cancellationTime p;
     againstVotes := againstVotes p; forVotes := forVotes p;
     abstainVotes := abstainVotes p |}.

Definition set_cancellation (blk tm : option BigInt) (p : t) : t :=
  {| id := id p; proposer := proposer p; targets := targets p;
     values := values p; signatures := signatures p;
     calldatas := calldatas p; creationBlock := creationBlock p;
     creationTime := creationTime p; startBlock := startBlock p;
     endBlock := endBlock p; description := description p;
     state := state p; executionETA := executionETA p;
     executionBlock := executionBlock p; executionTime := executionTime p;
     cancellationBlock := blk; cancellationTime := tm;
     againstVotes := againstVotes p; forVotes := forVotes p;
     abstainVotes := abstainVotes p |}.

Definition set_againstVotes (v : BigInt) (p : t) : t :=
  {| id := id p; proposer := proposer p; targets := targets p;
     values := values p; signatures := signatures p;
     calldatas := calldatas p; creationBlock := creationBlock p;
     creationTime := creationTime p; startBlock := startBlock p;
     endBlock := endBlock p; description := description p;
     state := state p; executionETA := executionETA p;
     executionBlock := executionBlock p; executionTime := executionTime p;
     cancellationBlock := cancellationBlock p;
     cancellationTime := cancellationTime p;
     againstVotes := v; forVotes := forVotes p;
     abstainVotes := abstainVotes p |}.

Definition set_forVotes (v : BigInt) (p : t) : t :=
  {| id := id p; proposer := proposer p; targets := targets p;
     values := values p; signatures := signatures p;
     calldatas := calldatas p; creationBlock := creationBlock p;
     creationTime := creationTime p; startBlock := startBlock p;
     endBlock := endBlock p; description := description p;
     state := state p; executionETA := executionETA p;
     executionBlock := executionBlock p; executionTime := executionTime p;
     cancellationBlock := cancellationBlock p;
     cancellationTime := cancellationTime p;
     againstVotes := againstVotes p; forVotes := v;
     abstainVotes := abstainVotes p |}.

Definition set_abstainVotes (v : BigInt) (p : t) : t :=
  {| id := id p; proposer := proposer p; targets := targets p;
     values := values p; signatures := signatures p;
     calldatas := calldatas p; creationBlock := creationBlock p;
     creationTime := creationTime p; startBlock := startBlock p;
     endBlock := endBlock p; description := description p;
     state := state p; executionETA := executionETA p;
     executionBlock := executionBlock p; executionTime := executionTime p;
     cancellationBlock := cancellationBlock p;
     cancellationTime := cancellationTime p;
     againstVotes := againstVotes p; forVotes := forVotes p;
     abstainVotes := v |}.
End Proposal.

(** Modelled from the spec: [helpers.getVoteChoiceByValue] is missing from
    the sources. The handler's comment gives "0 = Against, 1 = For,
    2 = Abstain"; for any other code the specification says the Vote is
    created "with that literal code stored". *)
Inductive VoteChoice : Type :=
  | AGAINST
  | FOR
  | ABSTAIN
  | UnrecognizedChoice (code : Z).

Definition getVoteChoiceByValue (support : Z) : VoteChoice :=
  if decide (support = 0) then AGAINST
  else if decide (support = 1) then FOR
  else if decide (support = 2) then ABSTAIN
  else UnrecognizedChoice support.

Module Vote.
Record t : Type := {
    id : string;
    proposal : option string;
    voter : option string;
    weight : BigInt;
    reason : string;
    choice : option VoteChoice
  }.

Definition new (i : string) : t :=
  {| id := i; proposal := None; voter := None; weight := 0; reason := "";
     choice := None |}.
End Vote.

(** ** The entity store and the observability sink

    Modelled from the spec: the host's entity store is a "key-value /
    document store keyed by entity-type + id" with operations [load]
    (entity or absent), [create] (the [new] above) and [save] (upsert).
    A load returns a copy of the stored entity; only [save] writes.
    Since [new] gives every field its default, an entity built with
    [new] and saved sets every field of the stored one: this is what lets
    [handleVoteCast] read [numberVotes] of a fresh Delegate, and it is
    the reset that section 4.4 of the specification describes.
    The log sink records every report and never halts processing. *)

Inductive LogLevel : Type := LogError | LogWarning | LogInfo.

Record LogEntry : Type := {
    level : LogLevel;
    format : string;
    arguments : list string
  }.

Record World : Type := {
    tokenHolders : gmap string TokenHolder.t;
    delegates : gmap string Delegate.t;
    proposals : gmap string Proposal.t;
    votes : gmap string Vote.t;
    governances : gmap string Governance.t;
    logs : list LogEntry
  }.

Definition emptyWorld : World :=
  {| tokenHolders := ∅; delegates := ∅; proposals := ∅; votes := ∅;
     governances := ∅; logs := [] |}.

(** A handler either runs to completion, giving a result and the new
    world, or aborts the mapping ([None]): in AssemblyScript a null
    dereference is a fatal runtime error. *)
Definition M (A : Type) : Type := World → option (A * World).

Definition ret {A} (a : A) : M A := λ w, Some (a, w).

Definition bind {A B} (m : M A) (k : A → M B) : M B :=
  λ w, match m w with
       | Some (a, w') => k a w'
       | None => None
       end.

Definition abort {A} : M A := λ _, None.

Declare Scope handler_scope.
Delimit Scope handler_scope with handler.
Notation "'let*' x := m 'in' k" := (bind m (λ x, k))
  (at level 10, x pattern, m at level 100, k at level 200) : handler_scope.
Notation "m ;; k" := (bind m (λ _, k))
  (at level 100, k at level 200, right associativity) : handler_scope.
Local Open Scope handler_scope.

(** The world a handler leaves behind, when it completes. *)
Definition exec {A} (m : M A) (w : World) : option World :=
  match m w with
  | Some (_, w') => Some w'
  | None => None
  end.

Module store.
Definition load_TokenHolder (i : string) : M (option TokenHolder.t) :=
  λ w, Some (tokenHolders w !! i, w).

Definition load_Delegate (i : string) : M (option Delegate.t) :=
  λ w, Some (delegates w !! i, w).

Definition load_Proposal (i : string) : M (option Proposal.t) :=
  λ w, Some (proposals w !! i, w).

Definition load_Governance (i : string) : M (option Governance.t) :=
  λ w, Some (governances w !! i, w).

Definition save_TokenHolder (h : TokenHolder.t) : M unit :=
  λ w, Some (tt,
    {| tokenHolders := <[TokenHolder.id h := h]> (tokenHolders w);
       delegates := delegates w; proposals := proposals w;
       votes := votes w; governances := governances w; logs := logs w |}).

Definition save_Delegate (d : Delegate.t) : M unit :=
  λ w, Some (tt,
    {| tokenHolders := tokenHolders w;
       delegates := <[Delegate.id d := d]> (delegates w);
       proposals := proposals w; votes := votes w;
       governances := governances w; logs := logs w |}).

Definition save_Proposal (p : Proposal.t) : M unit :=
  λ w, Some (tt,
    {| tokenHolders := tokenHolders w; delegates := delegates w;
       proposals := <[Proposal.id p := p]> (proposals w);
       votes := votes w; governances := governances w; logs := logs w |}).

Definition save_Vote (v : Vote.t) : M unit :=
  λ w, Some (tt,
    {| tokenHolders := tokenHolders w; delegates := delegates w;
       proposals := proposals w; votes := <[Vote.id v := v]> (votes w);
       governances := governances w; logs := logs w |}).

Definition save_Governance (g : Governance.t) : M unit :=
  λ w, Some (tt,
    {| tokenHolders := tokenHolders w; delegates := delegates w;
       proposals := proposals w; votes := votes w;
       governances := <[Governance.id g := g]> (governances w);
       logs := logs w |}).
End store.

Module log.
Definition error (fmt : string) (args : list string) : M unit :=
  λ w, Some (tt,
    {| tokenHolders := tokenHolders w; delegates := delegates w;
       proposals := proposals w; votes := votes w;
       governances := governances w;
       logs := logs w ++
               [{| level := LogError; format := fmt; arguments := args |}] |}).
End log.

(** ** The accessors of [helpers]

    Modelled from the spec: [helpers.getGovernance], [getDelegate],
    [getProposal] and [getTokenHolder] are missing from the sources.
    "All entities are created lazily on first reference (get-or-create)";
    "get-or-create is a standard composite of [load] and [create]". *)

Definition getTokenHolder (i : string) : M TokenHolder.t :=
  let* o := store.load_TokenHolder i in
  ret (default (TokenHolder.new i) o).

Definition getDelegate (i : string) : M Delegate.t :=
  let* o := store.load_Delegate i in
  ret (default (Delegate.new i) o).

Definition getProposal (i : string) : M Proposal.t :=
  let* o := store.load_Proposal i in
  ret (default (Proposal.new i) o).

Definition getGovernance : M Governance.t :=
  let* o := store.load_Governance GOVERNANCE_NAME in
  ret (default (Governance.new GOVERNANCE_NAME) o).

Definition addressesToHexStrings (l : list Address) : list string :=
  map toHexString l.

(** ** Events *)

Record EventContext : Type := {
    blockNumber : BigInt;
    blockTimestamp : BigInt;
    transactionHash : string
  }.

Module Transfer.
Record t : Type := {
    context : EventContext;
    from : Address;
    to : Address;
    value : BigInt
  }.
End Transfer.

Module DelegateVotesChanged.
Record t : Type := {
    context : EventContext;
    delegate : Address;
    previousBalance : BigInt;
    newBalance : BigInt
  }.
End DelegateVotesChanged.

Module DelegateChanged.
Record t : Type := {
    context : EventContext;
    delegator : Address;
    fromDelegate : Address;
    toDelegate : Address
  }.
End DelegateChanged.

Module ProposalCreated.
Record t : Type := {
    context : EventContext;
    proposalId : BigInt;
    proposer : Address;
    targets : list Address;
    values : list BigInt;
    signatures : list string;
    calldatas : list string;
    startBlock : BigInt;
    endBlock : BigInt;
    description : string
  }.
End ProposalCreated.

Module ProposalCanceled.
Record t : Type := { context : EventContext; proposalId : BigInt }.
End ProposalCanceled.

Module ProposalExecuted.
Record t : Type := { context : EventContext; proposalId : BigInt }.
End ProposalExecuted.

Module ProposalQueued.
Record t : Type := {
    context : EventContext;
    proposalId : BigInt;
    eta : BigInt
  }.
End ProposalQueued.

Module QuorumNumeratorUpdated.
Record t : Type := {
    context : EventContext;
    oldQuorumNumerator : BigInt;
    newQuorumNumerator : BigInt
  }.
End QuorumNumeratorUpdated.

Module VoteCast.
Record t : Type := {
    context : EventContext;
    voter : Address;
    proposalId : BigInt;
    support : Z;
    weight : BigInt;
    reason : string
  }.
End VoteCast.

(** ** The handlers of the governance mapping *)

(** ProposalCanceled(proposalId) *)
Definition handleProposalCanceled (event : ProposalCanceled.t) : M unit :=
  let ctx := ProposalCanceled.context event in
  let* proposal := getProposal (toString (ProposalCanceled.proposalId event)) in
  let proposal := Proposal.set_state (Some PROPOSAL_STATE_CANCELED) proposal in
  let proposal :=
    Proposal.set_cancellation (Some (blockNumber ctx))
      (Some (blockTimestamp ctx)) proposal in
  store.save_Proposal proposal ;;
  let* governance := getGovernance in
  let governance :=
    Governance.set_proposalsCanceled
      (Governance.proposalsCanceled governance + BIGINT_ONE) governance in
  store.save_Governance governance.

(** ProposalCreated(proposalId, proposer, targets, values, signatures,
    calldatas, startBlock, endBlock, description).

    The handler tests the delegate it obtained against [null] and then
    reads its [id]; it is written here over any accessor [lookup] that
    may answer [null], the read of [id] on [null] being fatal. *)
Definition handleProposalCreated_with
    (lookup : string → M (option Delegate.t))
    (event : ProposalCreated.t) : M unit :=
  let ctx := ProposalCreated.context event in
  let* proposal := getProposal (toString (ProposalCreated.proposalId event)) in
  let* proposer := lookup (toHexString (ProposalCreated.proposer event)) in
  (if decide (proposer = None) then
     log.error
       "Delegate participant {} not found on ProposalCreated. tx_hash: {}"
       [toHexString (ProposalCreated.proposer event); transactionHash ctx]
   else ret tt) ;;
  let* proposer_id :=
    match proposer with
    | Some d => ret (Delegate.id d)
    | None => abort
    end in
  let proposal :=
    {| Proposal.id := Proposal.id proposal;
       Proposal.proposer := Some proposer_id;
       Proposal.targets :=
         addressesToHexStrings (ProposalCreated.targets event);
       Proposal.values := ProposalCreated.values event;
       Proposal.signatures := ProposalCreated.signatures event;
       Proposal.calldatas := ProposalCreated.calldatas event;
       Proposal.creationBlock := blockNumber ctx;
       Proposal.creationTime := blockTimestamp ctx;
       Proposal.startBlock := ProposalCreated.startBlock event;
       Proposal.endBlock := ProposalCreated.endBlock event;
       Proposal.description := ProposalCreated.description event;
       Proposal.state :=
         (if decide (blockNumber ctx >= ProposalCreated.startBlock event)
          then Some PROPOSAL_STATE_ACTIVE
          else Some PROPOSAL_STATE_PENDING);
       Proposal.executionETA := Proposal.executionETA proposal;
       Proposal.executionBlock := Proposal.executionBlock proposal;
       Proposal.executionTime := Proposal.executionTime proposal;
       Proposal.cancellationBlock := Proposal.cancellationBlock proposal;
       Proposal.cancellationTime := Proposal.cancellationTime proposal;
       Proposal.againstVotes := Proposal.againstVotes proposal;
       Proposal.forVotes := Proposal.forVotes proposal;
       Proposal.abstainVotes := Proposal.abstainVotes proposal |} in
  store.save_Proposal proposal ;;
  let* governance := getGovernance in
  let governance :=
    Governance.set_proposals
      (Governance.proposals governance + BIGINT_ONE) governance in
  store.save_Governance governance.

(** The handler as the mapping runs it, over the get-or-create
    accessor. *)
Definition handleProposalCreated (event : ProposalCreated.t) : M unit :=
  handleProposalCreated_with
    (λ i, let* d := getDelegate i in ret (Some d)) event.

(** ProposalExecuted(proposalId) *)
Definition handleProposalExecuted (event : ProposalExecuted.t) : M unit :=
  let ctx := ProposalExecuted.context event in
  let* proposal := getProposal (toString (ProposalExecuted.proposalId event)) in
  let proposal := Proposal.set_state (Some PROPOSAL_STATE_EXECUTED) proposal in
  let proposal := Proposal.set_executionETA None proposal in
  let proposal :=
    Proposal.set_execution (Some (blockNumber ctx))
      (Some (blockTimestamp ctx)) proposal in
  store.save_Proposal proposal ;;
  let* governance := getGovernance in
  let governance :=
    Governance.set_proposalsQueued
      (Governance.proposalsQueued governance - BIGINT_ONE) governance in
  let governance :=
    Governance.set_proposalsExecuted
      (Governance.proposalsExecuted governance + BIGINT_ONE) governance in
  store.save_Governance governance.

(** ProposalQueued(proposalId, eta) *)
Definition handleProposalQueued (event : ProposalQueued.t) : M unit :=
  let* proposal := getProposal (toString (ProposalQueued.proposalId event)) in
  let proposal := Proposal.set_state (Some PROPOSAL_STATE_QUEUED) proposal in
  let proposal :=
    Proposal.set_executionETA (Some (ProposalQueued.eta event)) proposal in
  store.save_Proposal proposal ;;
  let* governance := getGovernance in
  let governance :=
    Governance.set_proposalsQueued
      (Governance.proposalsQueued governance + BIGINT_ONE) governance in
  store.save_Governance governance.

(** QuorumNumeratorUpdated(oldQuorumNumerator, newQuorumNumerator) *)
Definition handleQuorumNumeratorUpdated
    (event : QuorumNumeratorUpdated.t) : M unit :=
  let governance := Governance.new GOVERNANCE_NAME in
  let governance :=
    Governance.set_quorumNumerator
      (QuorumNumeratorUpdated.newQuorumNumerator event) governance in
  store.save_Governance governance.

(** VoteCast(account, proposalId, support, weight, reason) *)
Definition handleVoteCast (event : VoteCast.t) : M unit :=
  let proposalId := toString (VoteCast.proposalId event) in
  let voterAddress := toHexString (VoteCast.voter event) in
  let voteId := voterAddress +:+ "-" +:+ proposalId in
  let vote :=
    {| Vote.id := Vote.id (Vote.new voteId);
       Vote.proposal := Some proposalId;
       Vote.voter := Some voterAddress;
       Vote.weight := VoteCast.weight event;
       Vote.reason := VoteCast.reason event;
       Vote.choice := Some (getVoteChoiceByValue (VoteCast.support event)) |} in
  store.save_Vote vote ;;
  let* proposal := getProposal proposalId in
  let proposal :=
    if decide (Proposal.state proposal = Some PROPOSAL_STATE_PENDING)
    then Proposal.set_state (Some PROPOSAL_STATE_ACTIVE) proposal
    else proposal in
  let proposal :=
    if decide (VoteCast.support event = 0) then
      Proposal.set_againstVotes
        (Proposal.againstVotes proposal + BIGINT_ONE) proposal
    else if decide (VoteCast.support event = 1) then
      Proposal.set_forVotes (Proposal.forVotes proposal + BIGINT_ONE) proposal
    else if decide (VoteCast.support event = 2) then
      Proposal.set_abstainVotes
        (Proposal.abstainVotes proposal + BIGINT_ONE) proposal
    else proposal in
  store.save_Proposal proposal ;;
  let voter := Delegate.new voterAddress in
  let voter :=
    Delegate.set_numberVotes (i32_add (Delegate.numberVotes voter) 1) voter in
  store.save_Delegate voter.

(** DelegateChanged(delegator, fromDelegate, toDelegate) *)
Definition handleDelegateChanged (event : DelegateChanged.t) : M unit :=
  let* tokenHolder :=
    getTokenHolder (toHexString (DelegateChanged.delegator event)) in
  let* previousDelegate :=
    getDelegate (toHexString (DelegateChanged.fromDelegate event)) in
  let* newDelegate :=
    getDelegate (toHexString (DelegateChanged.toDelegate event)) in
  let tokenHolder :=
    TokenHolder.set_delegate (Some (Delegate.id newDelegate)) tokenHolder in
  store.save_TokenHolder tokenHolder ;;
  let previousDelegate :=
    Delegate.set_tokenHoldersRepresentedAmount
      (i32_sub (Delegate.tokenHoldersRepresentedAmount previousDelegate) 1)
      previousDelegate in
  store.save_Delegate previousDelegate ;;
  let newDelegate :=
    Delegate.set_tokenHoldersRepresentedAmount
      (i32_add (Delegate.tokenHoldersRepresentedAmount newDelegate) 1)
      newDelegate in
  store.save_Delegate newDelegate.

(** DelegateVotesChanged(delegate, previousBalance, newBalance) *)
Definition handleDelegateVotesChanged
    (event : DelegateVotesChanged.t) : M unit :=
  let delegateAddress := DelegateVotesChanged.delegate event in
  let previousBalance := DelegateVotesChanged.previousBalance event in
  let newBalance := DelegateVotesChanged.newBalance event in
  let votesDifference := newBalance - previousBalance in
  let delegate := Delegate.new (toHexString delegateAddress) in
  let delegate := Delegate.set_delegatedVotesRaw newBalance delegate in
  let delegate := Delegate.set_delegatedVotes (toDecimal newBalance) delegate in
  store.save_Delegate delegate ;;
  let* governance := getGovernance in
  let governance :=
    if decide (previousBalance = BIGINT_ZERO ∧ newBalance > BIGINT_ZERO)
    then Governance.set_currentDelegates
           (Governance.currentDelegates governance + BIGINT_ONE) governance
    else governance in
  let governance :=
    if decide (newBalance = BIGINT_ZERO)
    then Governance.set_currentDelegates
           (Governance.currentDelegates governance - BIGINT_ONE) governance
    else governance in
  let governance :=
    Governance.set_delegatedVotesRaw
      (Governance.delegatedVotesRaw governance + votesDifference)
      governance in
  let governance :=
    Governance.set_delegatedVotes
      (toDecimal (Governance.delegatedVotesRaw governance)) governance in
  store.save_Governance governance.

Definition handleTimelockChange (event : EventContext) : M unit := ret tt.

(** Transfer(from, to, value): the block guarded by
    [from.toHexString() != ZERO_ADDRESS]. It works on the copy
    [fromHolder] loaded at the top of the handler and on the handler's
    one [governance] object, which it hands on to the rest. *)
Definition handleTransfer_from (event : Transfer.t)
    (fromHolder : TokenHolder.t) (governance : Governance.t)
    : M Governance.t :=
  let from := Transfer.from event in
  let value := Transfer.value event in
  if decide (toHexString from ≠ ZERO_ADDRESS) then
    let fromHolderPreviousBalance := TokenHolder.tokenBalanceRaw fromHolder in
    let fromHolder :=
      TokenHolder.set_tokenBalanceRaw
        (TokenHolder.tokenBalanceRaw fromHolder - value) fromHolder in
    let fromHolder :=
      TokenHolder.set_tokenBalance
        (toDecimal (TokenHolder.tokenBalanceRaw fromHolder)) fromHolder in
    (if decide (TokenHolder.tokenBalanceRaw fromHolder < BIGINT_ZERO) then
       log.error "Negative balance on holder {} with balance {}"
         [TokenHolder.id fromHolder;
          toString (TokenHolder.tokenBalanceRaw fromHolder)]
     else ret tt) ;;
    let* governance :=
      if decide (TokenHolder.tokenBalanceRaw fromHolder = BIGINT_ZERO
                 ∧ fromHolderPreviousBalance > BIGINT_ZERO) then
        let governance :=
          Governance.set_currentTokenHolders
            (Governance.currentTokenHolders governance - BIGINT_ONE)
            governance in
        store.save_Governance governance ;; ret governance
      else if decide (TokenHolder.tokenBalanceRaw fromHolder > BIGINT_ZERO
                      ∧ fromHolderPreviousBalance = BIGINT_ZERO) then
        let governance :=
          Governance.set_currentTokenHolders
            (Governance.currentTokenHolders governance + BIGINT_ONE)
            governance in
        store.save_Governance governance ;; ret governance
      else ret governance in
    store.save_TokenHolder fromHolder ;;
    ret governance
  else ret governance.

(** Transfer(from, to, value): the credit of [toHolder], the copy loaded
    at the top of the handler. *)
Definition handleTransfer_to (event : Transfer.t)
    (toHolder : TokenHolder.t) (governance : Governance.t) : M unit :=
  let value := Transfer.value event in
  let toHolderPreviousBalance := TokenHolder.tokenBalanceRaw toHolder in
  let toHolder :=
    TokenHolder.set_tokenBalanceRaw
      (TokenHolder.tokenBalanceRaw toHolder + value) toHolder in
  let toHolder :=
    TokenHolder.set_tokenBalance
      (toDecimal (TokenHolder.tokenBalanceRaw toHolder)) toHolder in
  let toHolder :=
    TokenHolder.set_totalTokensHeldRaw
      (TokenHolder.totalTokensHeldRaw toHolder + value) toHolder in
  let toHolder :=
    TokenHolder.set_totalTokensHeld
      (toDecimal (TokenHolder.totalTokensHeldRaw toHolder)) toHolder in
  (if decide (TokenHolder.tokenBalanceRaw toHolder = BIGINT_ZERO
              ∧ toHolderPreviousBalance > BIGINT_ZERO) then
     let governance :=
       Governance.set_currentTokenHolders
         (Governance.currentTokenHolders governance - BIGINT_ONE)
         governance in
     store.save_Governance governance
   else if decide (TokenHolder.tokenBalanceRaw toHolder > BIGINT_ZERO
                   ∧ toHolderPreviousBalance = BIGINT_ZERO) then
     let governance :=
       Governance.set_currentTokenHolders
         (Governance.currentTokenHolders governance + BIGINT_ONE)
         governance in
     store.save_Governance governance
   else ret tt) ;;
  store.save_TokenHolder toHolder.

(** Transfer(from, to, value) *)
Definition handleTransfer (event : Transfer.t) : M unit :=
  let from := Transfer.from event in
  let to := Transfer.to event in
  let* fromHolder := getTokenHolder (toHexString from) in
  let* toHolder := getTokenHolder (toHexString to) in
  let* governance := getGovernance in
  let* governance := handleTransfer_from event fromHolder governance in
  handleTransfer_to event toHolder governance.

(** ** Dispatch and replay

    Modelled from the spec: the dispatch layer "routes each incoming
    event, by its type, to the matching transition function"; events are
    processed "strictly sequentially, one at a time, to completion". *)

Inductive Event : Type :=
  | EvProposalCanceled (e : ProposalCanceled.t)
  | EvProposalCreated (e : ProposalCreated.t)
  | EvProposalExecuted (e : ProposalExecuted.t)
  | EvProposalQueued (e : ProposalQueued.t)
  | EvQuorumNumeratorUpdated (e : QuorumNumeratorUpdated.t)
  | EvTimelockChange (e : EventContext)
  | EvVoteCast (e : VoteCast.t)
  | EvDelegateChanged (e : DelegateChanged.t)
  | EvDelegateVotesChanged (e : DelegateVotesChanged.t)
  | EvTransfer (e : Transfer.t).

Definition dispatch (ev : Event) : M unit :=
  match ev with
  | EvProposalCanceled e => handleProposalCanceled e
  | EvProposalCreated e => handleProposalCreated e
  | EvProposalExecuted e => handleProposalExecuted e
  | EvProposalQueued e => handleProposalQueued e
  | EvQuorumNumeratorUpdated e => handleQuorumNumeratorUpdated e
  | EvTimelockChange e => handleTimelockChange e
  | EvVoteCast e => handleVoteCast e
  | EvDelegateChanged e => handleDelegateChanged e
  | EvDelegateVotesChanged e => handleDelegateVotesChanged e
  | EvTransfer e => handleTransfer e
  end.

(** The world after the whole log, or [None] when a handler aborted. *)
Fixpoint processEvents (evs : list Event) (w : World) : option World :=
  match evs with
  | [] => Some w
  | ev :: rest =>
      match exec (dispatch ev) w with
      | Some w' => processEvents rest w'
      | None => None
      end
  end.

(** The worlds reached after each event of the log, in order. *)
Fixpoint history (evs : list Event) (w : World) : list World :=
  match evs with
  | [] => []
  | ev :: rest =>
      match exec (dispatch ev) w with
      | Some w' => w' :: history rest w'
      | None => []
      end
  end.

(** ** Observations on a world *)

Definition governanceOf (w : World) : Governance.t :=
  default (Governance.new GOVERNANCE_NAME) (governances w !! GOVERNANCE_NAME).

Definition balanceOf (w : World) (a : string) : BigInt :=
  from_option TokenHolder.tokenBalanceRaw 0 (tokenHolders w !! a).

Definition delegatedVotesOf (w : World) (a : string) : BigInt :=
  from_option Delegate.delegatedVotesRaw 0 (delegates w !! a).

(** The number of TokenHolder entities with a strictly positive
    [tokenBalanceRaw]. *)
Definition positiveTokenHolders (w : World) : Z :=
  Z.of_nat (size (filter (λ kv, 0 < TokenHolder.tokenBalanceRaw kv.2)
                         (tokenHolders w))).

(** The number of Delegate entities with a strictly positive
    [delegatedVotesRaw]. *)
Definition positiveDelegates (w : World) : Z :=
  Z.of_nat (size (filter (λ kv, 0 < Delegate.delegatedVotesRaw kv.2)
                         (delegates w))).

(** The sum of [tokenBalanceRaw] over all TokenHolder entities. *)
Definition totalBalance (w : World) : Z :=
  map_fold (λ _ h acc, TokenHolder.tokenBalanceRaw h + acc) 0
           (tokenHolders w).

(** The total minted supply of a log: the values of the transfers whose
    [from] is the zero address. *)
Fixpoint mintedSupply (evs : list Transfer.t) : Z :=
  match evs with
  | [] => 0
  | e :: rest =>
      (if decide (toHexString (Transfer.from e) = ZERO_ADDRESS)
       then Transfer.value e else 0) + mintedSupply rest
  end.

(** Every entity is stored under its own id: the store is keyed by
    entity type and id. *)
Definition WellKeyed (w : World) : Prop :=
  map_Forall (λ k h, TokenHolder.id h = k) (tokenHolders w)
  ∧ map_Forall (λ k d, Delegate.id d = k) (delegates w)
  ∧ map_Forall (λ k p, Proposal.id p = k) (proposals w)
  ∧ map_Forall (λ k v, Vote.id v = k) (votes w)
  ∧ map_Forall (λ k g, Governance.id g = k) (governances w).

(** No TokenHolder entity has a negative [tokenBalanceRaw]. *)
Definition NoNegativeBalance (w : World) : Prop :=
  map_Forall (λ _ h, 0 ≤ TokenHolder.tokenBalanceRaw h) (tokenHolders w).

(** The counter of the governance singleton agrees with the store. *)
Definition HoldersCounted (w : World) : Prop :=
  Governance.currentTokenHolders (governanceOf w) = positiveTokenHolders w.

Definition DelegatesCounted (w : World) : Prop :=
  Governance.currentDelegates (governanceOf w) = positiveDelegates w.

(** A transfer of a holder to itself ([from] is not the zero address). *)
Definition SelfTransfer (e : Transfer.t) : Prop :=
  toHexString (Transfer.from e) = toHexString (Transfer.to e)
  ∧ toHexString (Transfer.from e) ≠ ZERO_ADDRESS.

(** The zero-crossing rule on a counter: plus one on a move from exactly
    zero to positive, minus one on a move from positive to exactly zero. *)
Definition zeroCrossing (previous current : Z) : Z :=
  if decide (previous = 0 ∧ 0 < current) then 1
  else if decide (0 < previous ∧ current = 0) then -1
  else 0.

(** A log of DelegateVotesChanged events that agrees with the store it is
    replayed on: each event reports as [previousBalance] the votes the
    store holds for the delegate (zero when it holds none), its
    [newBalance] is not negative, and the two are not both zero. *)
Fixpoint ConsistentVotes (evs : list DelegateVotesChanged.t) (w : World)
    : Prop :=
  match evs with
  | [] => True
  | e :: rest =>
      DelegateVotesChanged.previousBalance e
        = delegatedVotesOf w (toHexString (DelegateVotesChanged.delegate e))
      ∧ 0 ≤ DelegateVotesChanged.newBalance e
      ∧ ¬ (DelegateVotesChanged.previousBalance e = 0
           ∧ DelegateVotesChanged.newBalance e = 0)
      ∧ match exec (handleDelegateVotesChanged e) w with
        | Some w' => ConsistentVotes rest w'
        | None => True
        end
  end.

(** The sum of a measure over the entities of one type. *)
Definition sumOver {A} (g : A → Z) (m : gmap string A) : Z :=
  map_fold (λ _ x acc, g x + acc) 0 m.

Definition indicator (P : Prop) `{!Decision P} : Z := if decide P then 1 else 0.

(** What the accessors of [helpers] answer on a world. *)
Definition holderOf (w : World) (a : string) : TokenHolder.t :=
  default (TokenHolder.new a) (tokenHolders w !! a).

Definition delegateOf (w : World) (a : string) : Delegate.t :=
  default (Delegate.new a) (delegates w !! a).

Definition proposalOf (w : World) (i : string) : Proposal.t :=
  default (Proposal.new i) (proposals w !! i).

(** The report [handleTransfer] sends for a balance below zero. *)
Definition negativeBalanceReport (a : string) (b : BigInt) : LogEntry :=
  {| level := LogError;
     format := "Negative balance on holder {} with balance {}";
     arguments := [a; toString b] |}.

(** No Delegate entity has a negative [delegatedVotesRaw]. *)
Definition NoNegativeVotes (w : World) : Prop :=
  map_Forall (λ _ d, 0 ≤ Delegate.delegatedVotesRaw d) (delegates w).

(** Along the replay of a log of DelegateVotesChanged events, each event
    moves [currentDelegates] by the zero-crossing rule applied to its
    [previousBalance] and [newBalance]. *)
Fixpoint ZeroCrossingSteps (evs : list DelegateVotesChanged.t) (w : World)
    : Prop :=
  match evs with
  | [] => True
  | e :: rest =>
      match exec (handleDelegateVotesChanged e) w with
      | Some w' =>
          Governance.currentDelegates (governanceOf w')
          = Governance.currentDelegates (governanceOf w)
            + zeroCrossing (DelegateVotesChanged.previousBalance e)
                           (DelegateVotesChanged.newBalance e)
          ∧ ZeroCrossingSteps rest w'
      | None => False
      end
  end.

Global Instance WellKeyed_dec w : Decision (WellKeyed w).
Proof. unfold WellKeyed. apply _. Defined.

Global Instance SelfTransfer_dec e : Decision (SelfTransfer e).
Proof. unfold SelfTransfer. apply _. Defined.

Global Instance NoNegativeBalance_dec w : Decision (NoNegativeBalance w).
Proof. unfold NoNegativeBalance. apply _. Defined.

Global Instance HoldersCounted_dec w : Decision (HoldersCounted w).
Proof. unfold HoldersCounted. apply _. Defined.

Global Instance DelegatesCounted_dec w : Decision (DelegatesCounted w).
Proof. unfold DelegatesCounted. apply _. Defined.

(** ** The MasterChef reward mapping (biswap) *)

Module MasterChef.

(** Modelled from the spec: [BIGINT_NEG_ONE] of [common/constants] is
    missing from the sources; Withdraw and EmergencyWithdraw "apply the
    negated amount". *)
Definition BIGINT_NEG_ONE : BigInt := -1.

(** The reward-accounting collaborator: "a single entry point accepting
    (event context, pool id, signed amount delta)", acting on a state of
    its own. *)
Class RewardAccounting (St : Type) : Type :=
  handleReward : EventContext → BigInt → BigInt → St → St.

Record Deposit : Type := {
    deposit_context : EventContext;
    deposit_user : Address;
    deposit_pid : BigInt;
    deposit_amount : BigInt
  }.

Record Withdraw : Type := {
    withdraw_context : EventContext;
    withdraw_user : Address;
    withdraw_pid : BigInt;
    withdraw_amount : BigInt
  }.

Record EmergencyWithdraw : Type := {
    emergency_context : EventContext;
    emergency_user : Address;
    emergency_pid : BigInt;
    emergency_amount : BigInt
  }.

(** A deposit or stake for the pool specific MasterChef. *)
Definition handleDeposit {St} `{!RewardAccounting St} (event : Deposit)
    : St → St :=
  handleReward (deposit_context event) (deposit_pid event)
    (deposit_amount event).

(** A withdraw or unstaking for the pool specific MasterChef. *)
Definition handleWithdraw {St} `{!RewardAccounting St} (event : Withdraw)
    : St → St :=
  handleReward (withdraw_context event) (withdraw_pid event)
    (withdraw_amount event * BIGINT_NEG_ONE).

Definition handleEmergencyWithdraw {St} `{!RewardAccounting St}
    (event : EmergencyWithdraw) : St → St :=
  handleReward (emergency_context event) (emergency_pid event)
    (emergency_amount event * BIGINT_NEG_ONE).

(** A collaborator that only records the calls it receives. *)
Definition CallLog : Type := list (EventContext * BigInt * BigInt).

Global Instance recordingReward : RewardAccounting CallLog :=
  λ ctx pid delta calls, (calls ++ [(ctx, pid, delta)])%list.

End MasterChef.

(** ** Sample data for the worked examples *)

Definition sampleContext : EventContext :=
  {| blockNumber := 100; blockTimestamp := 1700000000;
     transactionHash := "0xfeed" |}.

Definition alice : Address := "0x00000000000000000000000000000000000000a1".
Definition bob : Address := "0x00000000000000000000000000000000000000b2".
Definition carol : Address := "0x00000000000000000000000000000000000000c3".

Definition transfer (f t : Address) (v : BigInt) : Transfer.t :=
  {| Transfer.context := sampleContext; Transfer.from := f;
     Transfer.to := t; Transfer.value := v |}.

Definition votesChanged (d : Address) (p n : BigInt)
    : DelegateVotesChanged.t :=
  {| DelegateVotesChanged.context := sampleContext;
     DelegateVotesChanged.delegate := d;
     DelegateVotesChanged.previousBalance := p;
     DelegateVotesChanged.newBalance := n |}.

Definition sampleTransfers : list Transfer.t :=
  [transfer ZERO_ADDRESS alice 5; transfer alice bob 5;
   transfer bob ZERO_ADDRESS 2; transfer ZERO_ADDRESS ZERO_ADDRESS 1].

(** [alice] sends what she never received, then receives more. *)
Definition overdraftLog : list Transfer.t :=
  [transfer alice bob 5; transfer carol alice 8].

(** A mint to [alice], then [alice] sends to herself. *)
Definition selfTransferLog : list Transfer.t :=
  [transfer ZERO_ADDRESS alice 5; transfer alice alice 3].

Definition sampleVotes : list DelegateVotesChanged.t :=
  [votesChanged alice 0 7; votesChanged bob 0 3; votesChanged alice 7 0;
   votesChanged bob 3 3].

(** The first event of the log reports votes the store never saw. *)
Definition unseenVotesLog : list DelegateVotesChanged.t :=
  [votesChanged alice 5 7].

(** A store in which [alice] holds 100. *)
Definition fundedWorld : World :=
  {| tokenHolders :=
       {[ alice := TokenHolder.set_tokenBalanceRaw 100 (TokenHolder.new alice) ]};
     delegates := ∅; proposals := ∅; votes := ∅; governances := ∅;
     logs := [] |}.

(** A store in which [alice] is a delegate with votes and holders. *)
Definition delegateWorld : World :=
  {| tokenHolders := ∅;
     delegates :=
       {[ alice :=
            {| Delegate.id := alice; Delegate.delegatedVotesRaw := 500;
               Delegate.delegatedVotes := toDecimal 500;
               Delegate.tokenHoldersRepresentedAmount := 3;
               Delegate.numberVotes := 4 |} ]};
     proposals := ∅; votes := ∅; governances := ∅; logs := [] |}.

Definition sampleProposal : ProposalCreated.t :=
  {| ProposalCreated.context := sampleContext;
     ProposalCreated.proposalId := 42;
     ProposalCreated.proposer := alice;
     ProposalCreated.targets := [bob];
     ProposalCreated.values := [0];
     ProposalCreated.signatures := ["transfer(address,uint256)"];
     ProposalCreated.calldatas := ["0x00"];
     ProposalCreated.startBlock := 120;
     ProposalCreated.endBlock := 220;
     ProposalCreated.description := "Fund the working group" |}.

Definition sampleQueued : ProposalQueued.t :=
  {| ProposalQueued.context := sampleContext;
     ProposalQueued.proposalId := 42;
     ProposalQueued.eta := 1700086400 |}.

Definition sampleExecuted : ProposalExecuted.t :=
  {| ProposalExecuted.context := sampleContext;
     ProposalExecuted.proposalId := 42 |}.

Definition voteCast (v : Address) (code : Z) : VoteCast.t :=
  {| VoteCast.context := sampleContext; VoteCast.voter := v;
     VoteCast.proposalId := 42; VoteCast.support := code;
     VoteCast.weight := 1000; VoteCast.reason := "" |}.

(** * Further definitions *)

(** ** Counting the events of a log *)

Definition isProposalCreated (ev : Event) : bool :=
  match ev with EvProposalCreated _ => true | _ => false end.

Definition isProposalCanceled (ev : Event) : bool :=
  match ev with EvProposalCanceled _ => true | _ => false end.

Definition isProposalQueued (ev : Event) : bool :=
  match ev with EvProposalQueued _ => true | _ => false end.

Definition isProposalExecuted (ev : Event) : bool :=
  match ev with EvProposalExecuted _ => true | _ => false end.

Definition isQuorumNumeratorUpdated (ev : Event) : bool :=
  match ev with EvQuorumNumeratorUpdated _ => true | _ => false end.

Fixpoint countEvents (P : Event → bool) (evs : list Event) : Z :=
  match evs with
  | [] => 0
  | ev :: rest => (if P ev then 1 else 0) + countEvents P rest
  end.

(** The holder as the guarded block of [handleTransfer] saves it, and as
    the credit block saves it. *)
Definition debited (v : BigInt) (h : TokenHolder.t) : TokenHolder.t :=
  TokenHolder.set_tokenBalance
    (toDecimal (TokenHolder.tokenBalanceRaw h - v))
    (TokenHolder.set_tokenBalanceRaw (TokenHolder.tokenBalanceRaw h - v) h).

Definition credited (v : BigInt) (h : TokenHolder.t) : TokenHolder.t :=
  TokenHolder.set_totalTokensHeld
    (toDecimal (TokenHolder.totalTokensHeldRaw h + v))
    (TokenHolder.set_totalTokensHeldRaw (TokenHolder.totalTokensHeldRaw h + v)
       (TokenHolder.set_tokenBalance
          (toDecimal (TokenHolder.tokenBalanceRaw h + v))
          (TokenHolder.set_tokenBalanceRaw
             (TokenHolder.tokenBalanceRaw h + v) h))).

Definition isTransfer (ev : Event) : bool :=
  match ev with EvTransfer _ => true | _ => false end.

Definition totalHeldOf (w : World) (a : string) : BigInt :=
  from_option TokenHolder.totalTokensHeldRaw 0 (tokenHolders w !! a).

(** No holder has a balance above what it was ever credited, and no
    holder was credited a negative total. *)
Definition BalanceWithinTotal (w : World) : Prop :=
  map_Forall (λ _ h, TokenHolder.tokenBalanceRaw h
                     ≤ TokenHolder.totalTokensHeldRaw h
                     ∧ 0 ≤ TokenHolder.totalTokensHeldRaw h)
             (tokenHolders w).

(** The Transfer events of a log carry values that are not negative. *)
Definition NonNegativeValue (ev : Event) : Prop :=
  match ev with
  | EvTransfer e => 0 ≤ Transfer.value e
  | _ => True
  end.

(** The events under which the holder count is kept: every event but
    QuorumNumeratorUpdated, a Transfer being no self-transfer. *)
Definition KeepsHolderCount (ev : Event) : Prop :=
  match ev with
  | EvTransfer e => ¬ SelfTransfer e
  | EvQuorumNumeratorUpdated _ => False
  | _ => True
  end.

Global Instance BalanceWithinTotal_dec w : Decision (BalanceWithinTotal w).
Proof. unfold BalanceWithinTotal. apply _. Defined.

Global Instance NonNegativeValue_dec ev : Decision (NonNegativeValue ev).
Proof. destruct ev; simpl; apply _. Defined.

Global Instance KeepsHolderCount_dec ev : Decision (KeepsHolderCount ev).
Proof. destruct ev; simpl; apply _. Defined.

(** The sum of [delegatedVotesRaw] over all Delegate entities. *)
Definition totalDelegatedVotes (w : World) : Z :=
  sumOver Delegate.delegatedVotesRaw (delegates w).

(** The governance singleton carries the sum of the delegates' votes. *)
Definition VotesSummed (w : World) : Prop :=
  Governance.delegatedVotesRaw (governanceOf w) = totalDelegatedVotes w.

(** Each event of the log reports as [previousBalance] the votes the
    store holds for its delegate. *)
Fixpoint VotesFollowStore (evs : list DelegateVotesChanged.t) (w : World)
    : Prop :=
  match evs with
  | [] => True
  | e :: rest =>
      DelegateVotesChanged.previousBalance e
        = delegatedVotesOf w (toHexString (DelegateVotesChanged.delegate e))
      ∧ match exec (handleDelegateVotesChanged e) w with
        | Some w' => VotesFollowStore rest w'
        | None => True
        end
  end.

Definition representedOf (w : World) (a : string) : Z :=
  Delegate.tokenHoldersRepresentedAmount (delegateOf w a).

Global Instance VotesSummed_dec w : Decision (VotesSummed w).
Proof. unfold VotesSummed. apply _. Defined.

(** The proposal as [handleVoteCast] saves it: promoted from Pending to
    Active, and with the tally of the support code incremented. *)
Definition castOn (support : Z) (p : Proposal.t) : Proposal.t :=
  let p :=
    if decide (Proposal.state p = Some PROPOSAL_STATE_PENDING)
    then Proposal.set_state (Some PROPOSAL_STATE_ACTIVE) p
    else p in
  if decide (support = 0) then
    Proposal.set_againstVotes (Proposal.againstVotes p + BIGINT_ONE) p
  else if decide (support = 1) then
    Proposal.set_forVotes (Proposal.forVotes p + BIGINT_ONE) p
  else if decide (support = 2) then
    Proposal.set_abstainVotes (Proposal.abstainVotes p + BIGINT_ONE) p
  else p.

(** The Vote record [handleVoteCast] saves for an event. *)
Definition voteOf (e : VoteCast.t) : Vote.t :=
  {| Vote.id := toHexString (VoteCast.voter e) +:+ "-"
                +:+ toString (VoteCast.proposalId e);
     Vote.proposal := Some (toString (VoteCast.proposalId e));
     Vote.voter := Some (toHexString (VoteCast.voter e));
     Vote.weight := VoteCast.weight e;
     Vote.reason := VoteCast.reason e;
     Vote.choice := Some (getVoteChoiceByValue (VoteCast.support e)) |}.

Definition talliesOf (p : Proposal.t) : Z :=
  Proposal.againstVotes p + Proposal.forVotes p + Proposal.abstainVotes p.

(** The deltas a recording collaborator has received, summed. *)
Definition sumDeltas (calls : MasterChef.CallLog) : Z :=
  foldr (λ c acc, c.2 + acc) 0 calls.

(** ** Further sample data *)

Definition sampleCanceled : ProposalCanceled.t :=
  {| ProposalCanceled.context := sampleContext;
     ProposalCanceled.proposalId := 42 |}.

Definition sampleDelegation : DelegateChanged.t :=
  {| DelegateChanged.context := sampleContext;
     DelegateChanged.delegator := alice;
     DelegateChanged.fromDelegate := ZERO_ADDRESS;
     DelegateChanged.toDelegate := bob |}.

Definition sampleLifecycle : list Event :=
  [EvProposalCreated sampleProposal; EvVoteCast (voteCast alice 1);
   EvProposalQueued sampleQueued; EvTransfer (transfer ZERO_ADDRESS alice 5);
   EvProposalExecuted sampleExecuted; EvProposalCanceled sampleCanceled].

Definition sampleMixed : list Event :=
  [EvTransfer (transfer ZERO_ADDRESS alice 5);
   EvDelegateChanged sampleDelegation;
   EvDelegateVotesChanged (votesChanged bob 0 5);
   EvTransfer (transfer alice carol 2);
   EvProposalCreated sampleProposal;
   EvVoteCast (voteCast bob 1);
   EvTransfer (transfer carol alice 2)].

Definition followingVotes : list DelegateVotesChanged.t :=
  [votesChanged alice 0 7; votesChanged bob 0 0; votesChanged alice 7 2].

Definition sampleDeposit : MasterChef.Deposit :=
  {| MasterChef.deposit_context := sampleContext;
     MasterChef.deposit_user := alice;
     MasterChef.deposit_pid := 3; MasterChef.deposit_amount := 40 |}.

Definition sampleWithdraw : MasterChef.Withdraw :=
  {| MasterChef.withdraw_context := sampleContext;
     MasterChef.withdraw_user := alice;
     MasterChef.withdraw_pid := 3; MasterChef.withdraw_amount := 40 |}.

Definition sampleEmergency : MasterChef.EmergencyWithdraw :=
  {| MasterChef.emergency_context := sampleContext;
     MasterChef.emergency_user := alice;
     MasterChef.emergency_pid := 3; MasterChef.emergency_amount := 40 |}.

(** A store in which proposal 42 is Pending with two votes in favour. *)
Definition pendingWorld : World :=
  {| tokenHolders := ∅; delegates := ∅;
     proposals :=
       {[ "42" := Proposal.set_forVotes 2
                    (Proposal.set_state (Some PROPOSAL_STATE_PENDING)
                       (Proposal.new "42")) ]};
     votes := ∅; governances := ∅; logs := [] |}.

(** * Properties *)

Ltac unfold_store :=
  unfold getTokenHolder, getDelegate, getProposal, getGovernance,
    store.load_TokenHolder, store.load_Delegate, store.load_Proposal,
    store.load_Governance, store.save_TokenHolder, store.save_Delegate,
    store.save_Proposal, store.save_Vote, store.save_Governance, log.error,
    exec, bind, ret, abort in *.

Ltac unfold_consts := unfold BIGINT_ZERO, BIGINT_ONE, toHexString in *.

Ltac unfold_handlers :=
  unfold handleProposalCanceled, handleProposalCreated,
    handleProposalCreated_with, handleProposalExecuted, handleProposalQueued,
    handleQuorumNumeratorUpdated, handleTimelockChange, handleVoteCast,
    handleDelegateChanged, handleDelegateVotesChanged in *.

Ltac solve_WellKeyed :=
  repeat split; simpl; auto;
  try (apply map_Forall_insert_2; [simpl; done|]);
  try (apply map_Forall_insert_2; [simpl; done|]);
  try (apply map_Forall_insert_2; [simpl; done|]); auto.

(** Decide a closed, decidable proposition by evaluation. *)
Ltac by_evaluation := apply (bool_decide_unpack _); vm_compute; exact I.

(** ** Sums and counts over the entities of one type *)

Section sums.
Context {A : Type} (g : A → Z).

Lemma sumOver_empty : sumOver g ∅ = 0.
Proof. unfold sumOver. apply map_fold_empty. Qed.

Lemma sumOver_insert_fresh (m : gmap string A) k x :
  m !! k = None → sumOver g (<[k:=x]> m) = g x + sumOver g m.
Proof.
  intros Hk. unfold sumOver.
  rewrite map_fold_insert_L; [done | | done].
  intros; lia.
Qed.

Lemma sumOver_delete (m : gmap string A) k :
  sumOver g (delete k m) = sumOver g m - from_option g 0 (m !! k).
Proof.
  destruct (m !! k) as [x|] eqn:Hk; simpl.
  - rewrite <- (insert_delete_id m k x Hk) at 2.
    rewrite sumOver_insert_fresh by apply lookup_delete_eq. lia.
  - rewrite delete_id by done. lia.
Qed.

(** Saving an entity replaces the measure of the one it overwrites. *)
Lemma sumOver_insert (m : gmap string A) k x :
  sumOver g (<[k:=x]> m) = sumOver g m - from_option g 0 (m !! k) + g x.
Proof.
  rewrite <- insert_delete_eq.
  rewrite sumOver_insert_fresh by apply lookup_delete_eq.
  rewrite sumOver_delete. lia.
Qed.
End sums.

Lemma size_filter_sumOver {A} (P : A → Prop) `{!∀ x, Decision (P x)}
    (m : gmap string A) :
  Z.of_nat (size (filter (λ kv, P kv.2) m)) = sumOver (λ x, indicator (P x)) m.
Proof.
  induction m as [|k x m Hk IH] using map_ind.
  - rewrite map_filter_empty, map_size_empty, sumOver_empty. done.
  - rewrite sumOver_insert_fresh by done. rewrite <- IH.
    unfold indicator. destruct (decide (P x)) as [HP|HP].
    + rewrite map_filter_insert_True by done.
      rewrite map_size_insert_None; [lia|].
      rewrite map_lookup_filter_None. by left.
    + rewrite map_filter_insert_False by done.
      rewrite delete_id by done. lia.
Qed.

Lemma positiveTokenHolders_sumOver w :
  positiveTokenHolders w
  = sumOver (λ h, indicator (0 < TokenHolder.tokenBalanceRaw h))
            (tokenHolders w).
Proof.
  unfold positiveTokenHolders.
  exact (size_filter_sumOver (λ h, 0 < TokenHolder.tokenBalanceRaw h)
           (tokenHolders w)).
Qed.

Lemma positiveDelegates_sumOver w :
  positiveDelegates w
  = sumOver (λ d, indicator (0 < Delegate.delegatedVotesRaw d)) (delegates w).
Proof.
  unfold positiveDelegates.
  exact (size_filter_sumOver (λ d, 0 < Delegate.delegatedVotesRaw d)
           (delegates w)).
Qed.

Lemma totalBalance_sumOver w :
  totalBalance w = sumOver TokenHolder.tokenBalanceRaw (tokenHolders w).
Proof. reflexivity. Qed.

Lemma indicator_balance (m : gmap string TokenHolder.t) k :
  from_option (λ h, indicator (0 < TokenHolder.tokenBalanceRaw h)) 0 (m !! k)
  = indicator (0 < from_option TokenHolder.tokenBalanceRaw 0 (m !! k)).
Proof. destruct (m !! k); simpl; [done|]. unfold indicator. by case_decide. Qed.

Lemma indicator_votes (m : gmap string Delegate.t) k :
  from_option (λ d, indicator (0 < Delegate.delegatedVotesRaw d)) 0 (m !! k)
  = indicator (0 < from_option Delegate.delegatedVotesRaw 0 (m !! k)).
Proof. destruct (m !! k); simpl; [done|]. unfold indicator. by case_decide. Qed.

(** Between values that are not negative, the zero-crossing rule is the
    change of the indicator "strictly positive". *)
Lemma zeroCrossing_indicator p n :
  0 ≤ p → 0 ≤ n → zeroCrossing p n = indicator (0 < n) - indicator (0 < p).
Proof. intros. unfold zeroCrossing, indicator. repeat case_decide; lia. Qed.

(** ** The store stays keyed by id *)

Lemma WellKeyed_empty : WellKeyed emptyWorld.
Proof. repeat split; apply map_Forall_empty. Qed.

Lemma governanceOf_id w :
  WellKeyed w → Governance.id (governanceOf w) = GOVERNANCE_NAME.
Proof.
  intros (_ & _ & _ & _ & Hg). unfold governanceOf.
  destruct (governances w !! GOVERNANCE_NAME) as [g|] eqn:E; simpl; [|done].
  by apply Hg in E.
Qed.

Lemma holderOf_id w a : WellKeyed w → TokenHolder.id (holderOf w a) = a.
Proof.
  intros (Hh & _). unfold holderOf.
  destruct (tokenHolders w !! a) as [h|] eqn:E; simpl; [|done].
  by apply Hh in E.
Qed.

Lemma delegateOf_id w a : WellKeyed w → Delegate.id (delegateOf w a) = a.
Proof.
  intros (_ & Hd & _). unfold delegateOf.
  destruct (delegates w !! a) as [d|] eqn:E; simpl; [|done].
  by apply Hd in E.
Qed.

Lemma proposalOf_id w i : WellKeyed w → Proposal.id (proposalOf w i) = i.
Proof.
  intros (_ & _ & Hp & _). unfold proposalOf.
  destruct (proposals w !! i) as [p|] eqn:E; simpl; [|done].
  by apply Hp in E.
Qed.

Lemma holderOf_balance w a :
  TokenHolder.tokenBalanceRaw (holderOf w a) = balanceOf w a.
Proof. unfold holderOf, balanceOf. by destruct (tokenHolders w !! a). Qed.

Lemma NoNegativeBalance_balanceOf w a :
  NoNegativeBalance w → 0 ≤ balanceOf w a.
Proof.
  intros H. unfold balanceOf.
  destruct (tokenHolders w !! a) as [h|] eqn:E; simpl; [|lia].
  by apply H in E.
Qed.

Lemma NoNegativeVotes_delegatedVotesOf w a :
  NoNegativeVotes w → 0 ≤ delegatedVotesOf w a.
Proof.
  intros H. unfold delegatedVotesOf.
  destruct (delegates w !! a) as [d|] eqn:E; simpl; [|lia].
  by apply H in E.
Qed.

(** ** Replay, one event at a time *)

Lemma processEvents_cons ev rest w :
  processEvents (ev :: rest) w
  = match exec (dispatch ev) w with
    | Some w' => processEvents rest w'
    | None => None
    end.
Proof. reflexivity. Qed.

Lemma history_cons ev rest w :
  history (ev :: rest) w
  = match exec (dispatch ev) w with
    | Some w' => w' :: history rest w'
    | None => []
    end.
Proof. reflexivity. Qed.

Lemma mintedSupply_cons e evs :
  mintedSupply (e :: evs) = mintedSupply [e] + mintedSupply evs.
Proof. cbn [mintedSupply]. lia. Qed.

(** ** handleTransfer *)

Lemma handleTransfer_unfold e w :
  handleTransfer e w
  = match handleTransfer_from e (holderOf w (toHexString (Transfer.from e)))
            (governanceOf w) w with
    | Some (g1, w1) =>
        handleTransfer_to e (holderOf w (toHexString (Transfer.to e))) g1 w1
    | None => None
    end.
Proof. reflexivity. Qed.

(** The handler has no fatal path. *)
Lemma handleTransfer_total e w : is_Some (exec (handleTransfer e) w).
Proof.
  unfold handleTransfer, handleTransfer_from, handleTransfer_to.
  unfold_store. simpl.
  repeat (case_decide; simpl); eauto.
Qed.

(** What the guarded block of [handleTransfer] does to the world. *)
Lemma handleTransfer_from_spec e h g w :
  WellKeyed w →
  Governance.id g = GOVERNANCE_NAME → governanceOf w = g →
  TokenHolder.id h = toHexString (Transfer.from e) →
  let a := toHexString (Transfer.from e) in
  let b := TokenHolder.tokenBalanceRaw h in
  let v := Transfer.value e in
  ∃ g' w1 h',
    handleTransfer_from e h g w = Some (g', w1)
    ∧ WellKeyed w1
    ∧ governanceOf w1 = g'
    ∧ Governance.id g' = GOVERNANCE_NAME
    ∧ Governance.currentTokenHolders g'
      = Governance.currentTokenHolders g
        + (if decide (a ≠ ZERO_ADDRESS) then zeroCrossing b (b - v) else 0)
    ∧ TokenHolder.id h' = a
    ∧ TokenHolder.tokenBalanceRaw h' = b - v
    ∧ tokenHolders w1
      = (if decide (a ≠ ZERO_ADDRESS) then <[a:=h']> (tokenHolders w)
         else tokenHolders w)
    ∧ logs w1
      = logs w ++ (if decide (a ≠ ZERO_ADDRESS ∧ b - v < 0)
                   then [negativeBalanceReport a (b - v)] else []).
Proof.
  intros WK Hg Hgov Hid a b v. subst a b v.
  destruct WK as (W1 & W2 & W3 & W4 & W5).
  unfold handleTransfer_from. unfold_store. unfold_consts.
  unfold zeroCrossing, negativeBalanceReport, governanceOf, WellKeyed in *.
  repeat (case_decide; simpl in * ); try lia.
  all: eexists; eexists;
    exists (TokenHolder.set_tokenBalance
              (toDecimal (TokenHolder.tokenBalanceRaw h - Transfer.value e))
              (TokenHolder.set_tokenBalanceRaw
                 (TokenHolder.tokenBalanceRaw h - Transfer.value e) h));
    simpl.
  all: split; [reflexivity|]; simpl.
  all: rewrite ?Hid, ?Hg, ?app_nil_r.
  all: rewrite ?lookup_insert_eq; simpl.
  all: repeat split; auto; try lia.
  all: try (apply map_Forall_insert_2; [simpl; done|done]).
  all: exfalso; intuition lia.
Qed.

(** What the credit block of [handleTransfer] does to the world. *)
Lemma handleTransfer_to_spec e h g w :
  WellKeyed w →
  Governance.id g = GOVERNANCE_NAME → governanceOf w = g →
  TokenHolder.id h = toHexString (Transfer.to e) →
  let a := toHexString (Transfer.to e) in
  let b := TokenHolder.tokenBalanceRaw h in
  let v := Transfer.value e in
  ∃ w' h',
    handleTransfer_to e h g w = Some (tt, w')
    ∧ WellKeyed w'
    ∧ Governance.currentTokenHolders (governanceOf w')
      = Governance.currentTokenHolders g + zeroCrossing b (b + v)
    ∧ TokenHolder.id h' = a
    ∧ TokenHolder.tokenBalanceRaw h' = b + v
    ∧ tokenHolders w' = <[a:=h']> (tokenHolders w)
    ∧ logs w' = logs w.
Proof.
  intros WK Hg Hgov Hid a b v. subst a b v.
  destruct WK as (W1 & W2 & W3 & W4 & W5).
  unfold handleTransfer_to. unfold_store. unfold_consts.
  unfold zeroCrossing, governanceOf, WellKeyed in *.
  repeat (case_decide; simpl in * ); try lia.
  all: eexists;
    exists (TokenHolder.set_totalTokensHeld
              (toDecimal (TokenHolder.totalTokensHeldRaw h + Transfer.value e))
              (TokenHolder.set_totalTokensHeldRaw
                 (TokenHolder.totalTokensHeldRaw h + Transfer.value e)
                 (TokenHolder.set_tokenBalance
                    (toDecimal
                       (TokenHolder.tokenBalanceRaw h + Transfer.value e))
                    (TokenHolder.set_tokenBalanceRaw
                       (TokenHolder.tokenBalanceRaw h + Transfer.value e)
                       h))));
    (split; [reflexivity|]); simpl.
  all: rewrite ?Hid, ?Hg, ?lookup_insert_eq; simpl.
  all: repeat split; auto; try lia.
  all: try (apply map_Forall_insert_2; [simpl; done|done]).
  all: try (rewrite Hgov; lia).
Qed.

(** The whole handler: both holders are read from the world the handler
    starts in, the debit is saved first and the credit last. *)
Lemma handleTransfer_spec e w :
  WellKeyed w →
  let f := toHexString (Transfer.from e) in
  let t := toHexString (Transfer.to e) in
  let v := Transfer.value e in
  ∃ w' hf ht,
    exec (handleTransfer e) w = Some w'
    ∧ WellKeyed w'
    ∧ Governance.currentTokenHolders (governanceOf w')
      = Governance.currentTokenHolders (governanceOf w)
        + (if decide (f ≠ ZERO_ADDRESS)
           then zeroCrossing (balanceOf w f) (balanceOf w f - v) else 0)
        + zeroCrossing (balanceOf w t) (balanceOf w t + v)
    ∧ TokenHolder.tokenBalanceRaw hf = balanceOf w f - v
    ∧ TokenHolder.tokenBalanceRaw ht = balanceOf w t + v
    ∧ tokenHolders w'
      = <[t:=ht]> (if decide (f ≠ ZERO_ADDRESS)
                   then <[f:=hf]> (tokenHolders w) else tokenHolders w)
    ∧ logs w'
      = logs w ++ (if decide (f ≠ ZERO_ADDRESS ∧ balanceOf w f - v < 0)
                   then [negativeBalanceReport f (balanceOf w f - v)]
                   else []).
Proof.
  intros WK f t v. subst f t v.
  destruct (handleTransfer_from_spec e
              (holderOf w (toHexString (Transfer.from e)))
              (governanceOf w) w WK (governanceOf_id w WK) eq_refl
              (holderOf_id w _ WK))
    as (g' & w1 & hf & Hrun1 & WK1 & Hgov1 & Hid1 & Hcnt1 & Hidf & Hbf
        & Hth1 & Hlog1).
  destruct (handleTransfer_to_spec e
              (holderOf w (toHexString (Transfer.to e)))
              g' w1 WK1 Hid1 Hgov1 (holderOf_id w _ WK))
    as (w' & ht & Hrun2 & WK2 & Hcnt2 & Hidt & Hbt & Hth2 & Hlog2).
  exists w', hf, ht.
  rewrite !holderOf_balance in *.
  split.
  { unfold exec. by rewrite handleTransfer_unfold, Hrun1, Hrun2. }
  split; [done|].
  split; [rewrite Hcnt2, Hcnt1; lia|].
  split; [done|]. split; [done|].
  split; [by rewrite Hth2, Hth1|].
  by rewrite Hlog2, Hlog1.
Qed.

(** One transfer that is not a self-transfer, between worlds without a
    negative balance, keeps the counter equal to the count. *)
Lemma handleTransfer_keeps_count e w w' :
  WellKeyed w → HoldersCounted w → NoNegativeBalance w → ¬ SelfTransfer e →
  exec (handleTransfer e) w = Some w' → NoNegativeBalance w' →
  WellKeyed w' ∧ HoldersCounted w'.
Proof.
  intros WK HC NN Hself Hrun NN'.
  destruct (handleTransfer_spec e w WK)
    as (w2 & hf & ht & Hrun2 & WK' & Hcnt & Hbf & Hbt & Hth & _).
  rewrite Hrun in Hrun2. injection Hrun2 as <-.
  split; [done|].
  unfold HoldersCounted in *. rewrite Hcnt, HC.
  rewrite !positiveTokenHolders_sumOver, Hth.
  pose proof (NoNegativeBalance_balanceOf w
                (toHexString (Transfer.from e)) NN) as Hf0.
  pose proof (NoNegativeBalance_balanceOf w
                (toHexString (Transfer.to e)) NN) as Ht0.
  assert (0 ≤ TokenHolder.tokenBalanceRaw ht) as Ht1.
  { apply (NN' (toHexString (Transfer.to e))).
    rewrite Hth. apply lookup_insert_eq. }
  rewrite sumOver_insert, indicator_balance.
  case_decide as Hz.
  - assert (toHexString (Transfer.from e) ≠ toHexString (Transfer.to e))
      as Hne.
    { intros Heq. apply Hself. by split. }
    assert (0 ≤ TokenHolder.tokenBalanceRaw hf) as Hf1.
    { apply (NN' (toHexString (Transfer.from e))). rewrite Hth.
      rewrite lookup_insert_ne by done. apply lookup_insert_eq. }
    rewrite lookup_insert_ne by done.
    rewrite sumOver_insert, indicator_balance.
    fold (balanceOf w (toHexString (Transfer.from e))).
    fold (balanceOf w (toHexString (Transfer.to e))).
    rewrite !zeroCrossing_indicator by lia.
    rewrite Hbf, Hbt. lia.
  - fold (balanceOf w (toHexString (Transfer.to e))).
    rewrite !zeroCrossing_indicator by lia.
    rewrite Hbt. lia.
Qed.

Lemma history_transfers_counted evs : ∀ w,
  WellKeyed w → HoldersCounted w → NoNegativeBalance w →
  Forall (λ e, ¬ SelfTransfer e) evs →
  Forall NoNegativeBalance (history (map EvTransfer evs) w) →
  length (history (map EvTransfer evs) w) = length evs
  ∧ Forall HoldersCounted (history (map EvTransfer evs) w).
Proof.
  induction evs as [|e evs IH]; intros w WK HC NN Hself Hnn.
  { split; [done|constructor]. }
  rewrite map_cons, history_cons in *.
  change (dispatch (EvTransfer e)) with (handleTransfer e) in *.
  destruct (handleTransfer_total e w) as [w' Hrun].
  rewrite Hrun in *.
  apply Forall_cons in Hself as [He Hself].
  apply Forall_cons in Hnn as [NN' Hnn].
  destruct (handleTransfer_keeps_count e w w' WK HC NN He Hrun NN')
    as [WK' HC'].
  destruct (IH w' WK' HC' NN' Hself Hnn) as [Hlen Hall].
  split; [simpl; by rewrite Hlen | by constructor].
Qed.

(** C1 (amended). For every log of Transfer events replayed in order from
    the empty store, in which no event is a transfer of a non-zero address
    to itself and no event leaves a TokenHolder with a negative
    [tokenBalanceRaw]: every event is processed, and after each event
    [Governance.currentTokenHolders] equals the number of TokenHolder
    entities whose [tokenBalanceRaw] is strictly positive. *)
Theorem C1_currentTokenHolders_counts_positive_balances
    (evs : list Transfer.t) :
  Forall (λ e, ¬ SelfTransfer e) evs →
  Forall NoNegativeBalance (history (map EvTransfer evs) emptyWorld) →
  length (history (map EvTransfer evs) emptyWorld) = length evs
  ∧ Forall HoldersCounted (history (map EvTransfer evs) emptyWorld).
Proof.
  apply history_transfers_counted; [apply WellKeyed_empty|done|].
  apply map_Forall_empty.
Qed.

Lemma C1_witness :
  length (history (map EvTransfer sampleTransfers) emptyWorld)
    = length sampleTransfers
  ∧ Forall HoldersCounted (history (map EvTransfer sampleTransfers) emptyWorld).
Proof.
  apply (C1_currentTokenHolders_counts_positive_balances sampleTransfers).
  - by_evaluation.
  - by_evaluation.
Defined.

(** C1 as stated fails: [alice] overdraws (balance -5, reported and kept),
    then receives 8. Her balance moves from negative to positive, which is
    no move from exactly zero, so the counter stays at 1 while two holders
    have a positive balance. *)
Lemma C1_overdraft_counterexample :
  ¬ Forall HoldersCounted (history (map EvTransfer overdraftLog) emptyWorld)
  ∧ ∃ w, processEvents (map EvTransfer overdraftLog) emptyWorld = Some w
         ∧ Governance.currentTokenHolders (governanceOf w) = 1
         ∧ positiveTokenHolders w = 2.
Proof.
  split.
  - apply (bool_decide_eq_false_1 _). vm_compute. reflexivity.
  - eexists. split; [vm_compute; reflexivity|].
    split; vm_compute; reflexivity.
Qed.

(** A self-transfer of a whole balance also breaks the count: the debit
    copy reaches zero and decrements the counter, the credit copy then
    overwrites the balance with a positive one. *)
Example self_transfer_breaks_count :
  ∃ w, processEvents
         (map EvTransfer [transfer ZERO_ADDRESS alice 5; transfer alice alice 5])
         emptyWorld = Some w
       ∧ Governance.currentTokenHolders (governanceOf w) = 0
       ∧ positiveTokenHolders w = 1
       ∧ balanceOf w alice = 10.
Proof.
  eexists. split; [vm_compute; reflexivity|].
  repeat split; vm_compute; reflexivity.
Qed.

(** ** The supply *)

Lemma handleTransfer_supply e w w' :
  WellKeyed w → ¬ SelfTransfer e → exec (handleTransfer e) w = Some w' →
  WellKeyed w' ∧ totalBalance w' = totalBalance w + mintedSupply [e].
Proof.
  intros WK Hself Hrun.
  destruct (handleTransfer_spec e w WK)
    as (w2 & hf & ht & Hrun2 & WK' & _ & Hbf & Hbt & Hth & _).
  rewrite Hrun in Hrun2. injection Hrun2 as <-.
  split; [done|].
  rewrite !totalBalance_sumOver, Hth. simpl.
  rewrite sumOver_insert.
  case_decide as Hz.
  - assert (toHexString (Transfer.from e) ≠ toHexString (Transfer.to e))
      as Hne.
    { intros Heq. apply Hself. by split. }
    rewrite lookup_insert_ne by done.
    rewrite sumOver_insert.
    fold (balanceOf w (toHexString (Transfer.from e))).
    fold (balanceOf w (toHexString (Transfer.to e))).
    rewrite decide_False by done. lia.
  - fold (balanceOf w (toHexString (Transfer.to e))).
    rewrite decide_True by done.
    lia.
Qed.

(** Without self-transfers the balances sum to the minted supply. *)
Lemma supply_conserved_without_self_transfers evs : ∀ w,
  WellKeyed w → Forall (λ e, ¬ SelfTransfer e) evs →
  ∃ w', processEvents (map EvTransfer evs) w = Some w'
        ∧ WellKeyed w'
        ∧ totalBalance w' = totalBalance w + mintedSupply evs.
Proof.
  induction evs as [|e evs IH]; intros w WK Hself.
  { exists w. split; [done|]. split; [done|].
    change (mintedSupply []) with 0. lia. }
  apply Forall_cons in Hself as [He Hself].
  destruct (handleTransfer_total e w) as [w1 Hrun].
  destruct (handleTransfer_supply e w w1 WK He Hrun) as [WK1 Hsum1].
  destruct (IH w1 WK1 Hself) as (w' & Hrun' & WK' & Hsum').
  exists w'. rewrite map_cons, processEvents_cons.
  change (dispatch (EvTransfer e)) with (handleTransfer e).
  rewrite Hrun. split; [done|]. split; [done|].
  rewrite Hsum', Hsum1.
  rewrite (mintedSupply_cons e evs). lia.
Qed.

(** C3 (the code departs from it). The log [selfTransferLog] has values
    that are not negative and leaves no balance negative, yet after it the
    balances sum to 8 while 5 was minted: the self-transfer of 3 saves
    5 - 3 for [alice] and then overwrites it with 5 + 3. *)
Theorem C3_self_transfer_inflates_supply :
  Forall (λ e, 0 ≤ Transfer.value e) selfTransferLog
  ∧ Forall NoNegativeBalance
      (history (map EvTransfer selfTransferLog) emptyWorld)
  ∧ ∃ w, processEvents (map EvTransfer selfTransferLog) emptyWorld = Some w
         ∧ totalBalance w = 8
         ∧ mintedSupply selfTransferLog = 5.
Proof.
  split; [|split].
  - by_evaluation.
  - by_evaluation.
  - eexists. split; [vm_compute; reflexivity|].
    split; vm_compute; reflexivity.
Qed.

(** C4 (amended). For every Transfer event whose [from] is not the zero
    address and whose value exceeds the from-holder's balance: the guarded
    block saves the from-holder with the exact negative difference, the
    handler completes, its one report to the log is the negative-balance
    fault carrying that difference, the events after it are processed
    from the world it leaves, and, when [to] is another address than
    [from], the difference is the [tokenBalanceRaw] the store keeps for
    [from], not clamped. *)
Theorem C4_overdraft_reported_not_clamped (e : Transfer.t) (w : World) :
  WellKeyed w →
  toHexString (Transfer.from e) ≠ ZERO_ADDRESS →
  balanceOf w (toHexString (Transfer.from e)) < Transfer.value e →
  let a := toHexString (Transfer.from e) in
  let shortfall := balanceOf w a - Transfer.value e in
  ∃ g1 w1 w',
    handleTransfer_from e (holderOf w a) (governanceOf w) w = Some (g1, w1)
    ∧ balanceOf w1 a = shortfall
    ∧ shortfall < 0
    ∧ exec (handleTransfer e) w = Some w'
    ∧ logs w' = logs w ++ [negativeBalanceReport a shortfall]
    ∧ (toHexString (Transfer.to e) ≠ a → balanceOf w' a = shortfall)
    ∧ ∀ rest, processEvents (EvTransfer e :: rest) w = processEvents rest w'.
Proof.
  intros WK Hz Hlt a shortfall. subst a shortfall.
  destruct (handleTransfer_from_spec e
              (holderOf w (toHexString (Transfer.from e)))
              (governanceOf w) w WK (governanceOf_id w WK) eq_refl
              (holderOf_id w _ WK))
    as (g1 & w1 & hf & Hrun1 & WK1 & Hgov1 & Hid1 & _ & _ & Hbf & Hth1 & _).
  destruct (handleTransfer_spec e w WK)
    as (w' & hf' & ht & Hrun & _ & _ & Hbf' & _ & Hth & Hlog).
  rewrite holderOf_balance in Hbf.
  rewrite decide_True in Hth1 by done.
  rewrite decide_True in Hth by done.
  rewrite decide_True in Hlog by (split; [done|lia]).
  exists g1, w1, w'.
  repeat split; auto.
  - unfold balanceOf at 1. rewrite Hth1, lookup_insert_eq. done.
  - lia.
  - intros Hne. unfold balanceOf at 1.
    rewrite Hth, lookup_insert_ne, lookup_insert_eq by done. done.
  - intros rest. rewrite processEvents_cons.
    change (dispatch (EvTransfer e)) with (handleTransfer e).
    by rewrite Hrun.
Qed.

Lemma C4_witness :
  ∃ w', exec (handleTransfer (transfer alice bob 150)) fundedWorld = Some w'
        ∧ balanceOf w' alice = -50
        ∧ logs w' = [negativeBalanceReport alice (-50)].
Proof.
  destruct (C4_overdraft_reported_not_clamped
              (transfer alice bob 150) fundedWorld)
    as (g1 & w1 & w' & _ & _ & _ & Hrun & Hlog & Hbal & _).
  - by_evaluation.
  - by_evaluation.
  - by_evaluation.
  - exists w'. split; [exact Hrun|]. split.
    + apply Hbal. by_evaluation.
    + exact Hlog.
Defined.

(** C4 as stated fails when the overdrawing holder sends to itself:
    [alice] holds 100 and sends 150 to [alice]. The report carries -50,
    the debit copy is saved with -50, and the credit copy, read before
    the debit, is saved over it with 250. *)
Lemma C4_self_transfer_counterexample :
  toHexString (Transfer.from (transfer alice alice 150)) ≠ ZERO_ADDRESS
  ∧ balanceOf fundedWorld alice = 100
  ∧ ∃ w', exec (handleTransfer (transfer alice alice 150)) fundedWorld
            = Some w'
          ∧ logs w' = [negativeBalanceReport alice (-50)]
          ∧ balanceOf w' alice = 250
          ∧ balanceOf w' alice ≠ 100 - 150.
Proof.
  split; [by_evaluation|]. split; [reflexivity|].
  eexists. split; [vm_compute; reflexivity|].
  split; [vm_compute; reflexivity|].
  split; [vm_compute; reflexivity|].
  vm_compute. discriminate.
Qed.

(** C9. For every Transfer event whose [from] and [to] are the same
    non-zero address: both blocks work on the holder as it was before the
    handler ran; the guarded block saves balance minus value, the credit
    block then saves balance plus value over it, and that is the balance
    the store keeps. *)
Theorem C9_self_transfer_credits_value (e : Transfer.t) (w : World) :
  WellKeyed w →
  toHexString (Transfer.from e) = toHexString (Transfer.to e) →
  toHexString (Transfer.from e) ≠ ZERO_ADDRESS →
  let a := toHexString (Transfer.from e) in
  ∃ g1 w1 w',
    handleTransfer_from e (holderOf w a) (governanceOf w) w = Some (g1, w1)
    ∧ balanceOf w1 a = balanceOf w a - Transfer.value e
    ∧ handleTransfer_to e (holderOf w a) g1 w1 = Some (tt, w')
    ∧ exec (handleTransfer e) w = Some w'
    ∧ balanceOf w' a = balanceOf w a + Transfer.value e.
Proof.
  intros WK Heq Hz a. subst a.
  destruct (handleTransfer_from_spec e
              (holderOf w (toHexString (Transfer.from e)))
              (governanceOf w) w WK (governanceOf_id w WK) eq_refl
              (holderOf_id w _ WK))
    as (g1 & w1 & hf & Hrun1 & WK1 & Hgov1 & Hid1 & _ & _ & Hbf & Hth1 & _).
  assert (TokenHolder.id (holderOf w (toHexString (Transfer.from e)))
          = toHexString (Transfer.to e)) as Hidt.
  { rewrite <- Heq. by apply holderOf_id. }
  destruct (handleTransfer_to_spec e
              (holderOf w (toHexString (Transfer.from e)))
              g1 w1 WK1 Hid1 Hgov1 Hidt)
    as (w' & ht & Hrun2 & _ & _ & _ & Hbt & Hth2 & _).
  rewrite holderOf_balance in Hbf, Hbt.
  rewrite decide_True in Hth1 by done.
  exists g1, w1, w'. repeat split; auto.
  - unfold balanceOf at 1. by rewrite Hth1, lookup_insert_eq.
  - unfold exec. rewrite handleTransfer_unfold, Hrun1, <- Heq, Hrun2. done.
  - unfold balanceOf at 1. by rewrite Hth2, <- Heq, lookup_insert_eq.
Qed.

Lemma C9_witness :
  ∃ w', exec (handleTransfer (transfer alice alice 30)) fundedWorld = Some w'
        ∧ balanceOf w' alice = 130.
Proof.
  destruct (C9_self_transfer_credits_value
              (transfer alice alice 30) fundedWorld)
    as (g1 & w1 & w' & _ & _ & _ & Hrun & Hbal).
  - by_evaluation.
  - reflexivity.
  - by_evaluation.
  - exists w'. split; [exact Hrun | exact Hbal].
Defined.

(** ** handleDelegateVotesChanged *)

Lemma handleDelegateVotesChanged_spec e w :
  WellKeyed w →
  let a := toHexString (DelegateVotesChanged.delegate e) in
  let p := DelegateVotesChanged.previousBalance e in
  let n := DelegateVotesChanged.newBalance e in
  ∃ w' d,
    exec (handleDelegateVotesChanged e) w = Some w'
    ∧ WellKeyed w'
    ∧ Governance.currentDelegates (governanceOf w')
      = Governance.currentDelegates (governanceOf w)
        + (if decide (p = 0 ∧ n > 0) then 1 else 0)
        - (if decide (n = 0) then 1 else 0)
    ∧ Delegate.delegatedVotesRaw d = n
    ∧ delegates w' = <[a:=d]> (delegates w).
Proof.
  intros WK a p n. subst a p n.
  pose proof (governanceOf_id w WK) as Hg.
  destruct WK as (W1 & W2 & W3 & W4 & W5).
  unfold handleDelegateVotesChanged. unfold_store. unfold_consts.
  unfold governanceOf, WellKeyed in *. simpl.
  eexists.
  exists (Delegate.set_delegatedVotes
            (toDecimal (DelegateVotesChanged.newBalance e))
            (Delegate.set_delegatedVotesRaw
               (DelegateVotesChanged.newBalance e)
               (Delegate.new (DelegateVotesChanged.delegate e)))).
  split; [reflexivity|]. simpl.
  repeat (case_decide; simpl in * ); rewrite ?Hg, ?lookup_insert_eq; simpl.
  all: repeat split; auto; try lia.
  all: try (apply map_Forall_insert_2; [simpl; done|done]).
Qed.

Lemma consistent_votes_counted evs : ∀ w,
  WellKeyed w → DelegatesCounted w → NoNegativeVotes w →
  ConsistentVotes evs w →
  ZeroCrossingSteps evs w
  ∧ length (history (map EvDelegateVotesChanged evs) w) = length evs
  ∧ Forall DelegatesCounted (history (map EvDelegateVotesChanged evs) w).
Proof.
  induction evs as [|e evs IH]; intros w WK DC NN Hc.
  { repeat split. constructor. }
  change (ConsistentVotes (e :: evs) w) with
    (DelegateVotesChanged.previousBalance e
       = delegatedVotesOf w (toHexString (DelegateVotesChanged.delegate e))
     ∧ 0 ≤ DelegateVotesChanged.newBalance e
     ∧ ¬ (DelegateVotesChanged.previousBalance e = 0
          ∧ DelegateVotesChanged.newBalance e = 0)
     ∧ match exec (handleDelegateVotesChanged e) w with
       | Some w' => ConsistentVotes evs w'
       | None => True
       end) in Hc.
  destruct Hc as (Hprev & Hnew & Hnz & Hc).
  destruct (handleDelegateVotesChanged_spec e w WK)
    as (w' & d & Hrun & WK' & Hcnt & Hd & Hds).
  change (ZeroCrossingSteps (e :: evs) w) with
    (match exec (handleDelegateVotesChanged e) w with
     | Some w' =>
         Governance.currentDelegates (governanceOf w')
         = Governance.currentDelegates (governanceOf w)
           + zeroCrossing (DelegateVotesChanged.previousBalance e)
                          (DelegateVotesChanged.newBalance e)
         ∧ ZeroCrossingSteps evs w'
     | None => False
     end).
  rewrite map_cons, history_cons.
  change (dispatch (EvDelegateVotesChanged e))
    with (handleDelegateVotesChanged e).
  rewrite Hrun in *.
  pose proof (NoNegativeVotes_delegatedVotesOf w
                (toHexString (DelegateVotesChanged.delegate e)) NN) as Hp0.
  rewrite <- Hprev in Hp0.
  assert (Governance.currentDelegates (governanceOf w')
          = Governance.currentDelegates (governanceOf w)
            + zeroCrossing (DelegateVotesChanged.previousBalance e)
                           (DelegateVotesChanged.newBalance e)) as Hrule.
  { rewrite Hcnt. unfold zeroCrossing. repeat case_decide; lia. }
  assert (DelegatesCounted w') as DC'.
  { unfold DelegatesCounted in *. rewrite Hrule, DC.
    rewrite !positiveDelegates_sumOver, Hds.
    rewrite sumOver_insert, indicator_votes.
    fold (delegatedVotesOf w (toHexString (DelegateVotesChanged.delegate e))).
    rewrite <- Hprev, Hd.
    rewrite zeroCrossing_indicator by lia. lia. }
  assert (NoNegativeVotes w') as NN'.
  { unfold NoNegativeVotes. rewrite Hds.
    apply map_Forall_insert_2; [lia | done]. }
  destruct (IH w' WK' DC' NN' Hc) as (Hsteps & Hlen & Hall).
  repeat split; auto.
  simpl. by rewrite Hlen.
Qed.

(** C2 (amended). For every log of DelegateVotesChanged events replayed in
    order from the empty store, in which each event reports as
    [previousBalance] the [delegatedVotesRaw] the store holds for the
    delegate (zero when it has no entity), has a [newBalance] that is not
    negative, and does not have both balances zero: every event is
    processed, each event moves [Governance.currentDelegates] by the
    zero-crossing rule (plus one from exactly zero to positive, minus one
    from positive to exactly zero, nothing otherwise), and after each
    event the counter equals the number of Delegate entities whose
    [delegatedVotesRaw] is strictly positive. *)
Theorem C2_currentDelegates_counts_positive_votes
    (evs : list DelegateVotesChanged.t) :
  ConsistentVotes evs emptyWorld →
  ZeroCrossingSteps evs emptyWorld
  ∧ length (history (map EvDelegateVotesChanged evs) emptyWorld) = length evs
  ∧ Forall DelegatesCounted
      (history (map EvDelegateVotesChanged evs) emptyWorld).
Proof.
  apply consistent_votes_counted; [apply WellKeyed_empty|done|].
  apply map_Forall_empty.
Qed.

Lemma C2_witness :
  ZeroCrossingSteps sampleVotes emptyWorld
  ∧ length (history (map EvDelegateVotesChanged sampleVotes) emptyWorld)
    = length sampleVotes
  ∧ Forall DelegatesCounted
      (history (map EvDelegateVotesChanged sampleVotes) emptyWorld).
Proof.
  apply (C2_currentDelegates_counts_positive_votes sampleVotes).
  vm_compute. intuition congruence.
Defined.

(** C2 as stated fails: the handler takes [previousBalance] from the
    event and never reads the store. On the empty store an event that
    reports a move from 5 to 7 creates a delegate with 7 votes and leaves
    the counter at 0. *)
Lemma C2_unseen_votes_counterexample :
  ¬ Forall DelegatesCounted
      (history (map EvDelegateVotesChanged unseenVotesLog) emptyWorld)
  ∧ ∃ w, processEvents (map EvDelegateVotesChanged unseenVotesLog) emptyWorld
           = Some w
         ∧ Governance.currentDelegates (governanceOf w) = 0
         ∧ positiveDelegates w = 1.
Proof.
  split.
  - apply (bool_decide_eq_false_1 _). vm_compute. reflexivity.
  - eexists. split; [vm_compute; reflexivity|].
    split; vm_compute; reflexivity.
Qed.

(** The decrement of the handler tests [newBalance] alone: an event that
    reports a move from zero to zero takes the counter below zero. *)
Example zero_to_zero_decrements :
  ∃ w, exec (handleDelegateVotesChanged (votesChanged alice 0 0)) emptyWorld
         = Some w
       ∧ Governance.currentDelegates (governanceOf w) = -1
       ∧ positiveDelegates w = 0
       ∧ zeroCrossing 0 0 = 0.
Proof.
  eexists. split; [vm_compute; reflexivity|].
  repeat split; vm_compute; reflexivity.
Qed.

(** ** The proposal lifecycle *)

(** Whatever accessor the handler is given: when it answers [null], the
    handler aborts on [proposer.id], after the report. *)
Lemma handleProposalCreated_null_proposer_aborts lookup e w w1 :
  lookup (toHexString (ProposalCreated.proposer e)) w = Some (None, w1) →
  handleProposalCreated_with lookup e w = None.
Proof.
  intros H. unfold handleProposalCreated_with. unfold_store.
  rewrite H. reflexivity.
Qed.

(** Whatever accessor the handler is given: when it answers a delegate,
    the handler reports nothing. *)
Lemma handleProposalCreated_found_proposer_silent lookup e w d w1 w' :
  lookup (toHexString (ProposalCreated.proposer e)) w = Some (Some d, w1) →
  exec (handleProposalCreated_with lookup e) w = Some w' →
  logs w' = logs w1.
Proof.
  intros H. unfold handleProposalCreated_with. unfold_store.
  rewrite H. simpl. by intros [= <-].
Qed.

(** With the get-or-create accessor: for every ProposalCreated event
    whose proposer address has no Delegate entity in the store,
    [handleProposalCreated] completes and the proposal it saves is linked
    to the proposer by its address. *)
Lemma absent_proposer_is_linked_by_address
    (e : ProposalCreated.t) (w : World) :
  WellKeyed w →
  delegates w !! toHexString (ProposalCreated.proposer e) = None →
  ∃ w' p,
    exec (handleProposalCreated e) w = Some w'
    ∧ proposals w' !! toString (ProposalCreated.proposalId e) = Some p
    ∧ Proposal.proposer p = Some (toHexString (ProposalCreated.proposer e)).
Proof.
  intros WK Hnone.
  pose proof (proposalOf_id w (toString (ProposalCreated.proposalId e)) WK)
    as Hid.
  unfold_handlers. unfold_store. unfold proposalOf in Hid.
  rewrite Hnone. simpl.
  eexists _, _. split; [reflexivity|]. simpl.
  rewrite Hid, lookup_insert_eq. split; reflexivity.
Qed.

Lemma absent_proposer_is_linked_witness :
  ∃ w' p,
    exec (handleProposalCreated sampleProposal) emptyWorld = Some w'
    ∧ proposals w' !! toString (ProposalCreated.proposalId sampleProposal)
      = Some p
    ∧ Proposal.proposer p
      = Some (toHexString (ProposalCreated.proposer sampleProposal)).
Proof.
  apply (absent_proposer_is_linked_by_address sampleProposal emptyWorld).
  - by_evaluation.
  - reflexivity.
Defined.

(** C5 (the code departs from it). On the empty store the proposer of
    [sampleProposal] has no Delegate entity. The handler's comment says
    that an error should then be logged; the handler completes, logs
    nothing, and links the proposal to the proposer's address instead of
    a null reference: under the get-or-create accessor its null test
    never fires, and an accessor that did answer null would make the
    handler abort on [proposer.id]
    ([handleProposalCreated_null_proposer_aborts]). *)
Theorem C5_missing_proposer_goes_unreported :
  delegates emptyWorld !! toHexString (ProposalCreated.proposer sampleProposal)
    = None
  ∧ ∃ w' p,
      exec (handleProposalCreated sampleProposal) emptyWorld = Some w'
      ∧ logs w' = []
      ∧ proposals w' !! "42" = Some p
      ∧ Proposal.proposer p = Some alice
      ∧ Proposal.proposer p ≠ None.
Proof.
  split; [reflexivity|].
  eexists _, _. split; [vm_compute; reflexivity|].
  split; [reflexivity|]. split; [vm_compute; reflexivity|].
  split; [vm_compute; reflexivity | discriminate].
Qed.

Lemma handleProposalCreated_spec c w :
  WellKeyed w →
  ∃ w' p,
    exec (handleProposalCreated c) w = Some w'
    ∧ WellKeyed w'
    ∧ proposals w' !! toString (ProposalCreated.proposalId c) = Some p
    ∧ Governance.proposalsQueued (governanceOf w')
      = Governance.proposalsQueued (governanceOf w)
    ∧ Governance.proposalsExecuted (governanceOf w')
      = Governance.proposalsExecuted (governanceOf w).
Proof.
  intros WK.
  pose proof (proposalOf_id w (toString (ProposalCreated.proposalId c)) WK)
    as Hid.
  pose proof (governanceOf_id w WK) as Hg.
  destruct WK as (W1 & W2 & W3 & W4 & W5).
  unfold_handlers. unfold_store. unfold_consts.
  unfold proposalOf, governanceOf, WellKeyed in *. simpl.
  eexists _, _. split; [reflexivity|]. simpl.
  rewrite Hid, Hg, !lookup_insert_eq. solve_WellKeyed.
Qed.

Lemma handleProposalQueued_spec q w :
  WellKeyed w →
  ∃ w' p,
    exec (handleProposalQueued q) w = Some w'
    ∧ WellKeyed w'
    ∧ proposals w' !! toString (ProposalQueued.proposalId q) = Some p
    ∧ Proposal.state p = Some PROPOSAL_STATE_QUEUED
    ∧ Proposal.executionETA p = Some (ProposalQueued.eta q)
    ∧ Governance.proposalsQueued (governanceOf w')
      = Governance.proposalsQueued (governanceOf w) + 1
    ∧ Governance.proposalsExecuted (governanceOf w')
      = Governance.proposalsExecuted (governanceOf w).
Proof.
  intros WK.
  pose proof (proposalOf_id w (toString (ProposalQueued.proposalId q)) WK)
    as Hid.
  pose proof (governanceOf_id w WK) as Hg.
  destruct WK as (W1 & W2 & W3 & W4 & W5).
  unfold_handlers. unfold_store. unfold_consts.
  unfold proposalOf, governanceOf, WellKeyed in *. simpl.
  eexists _, _. split; [reflexivity|]. simpl.
  rewrite Hid, Hg, !lookup_insert_eq. solve_WellKeyed.
Qed.

Lemma handleProposalExecuted_spec x w :
  WellKeyed w →
  ∃ w' p,
    exec (handleProposalExecuted x) w = Some w'
    ∧ WellKeyed w'
    ∧ proposals w' !! toString (ProposalExecuted.proposalId x) = Some p
    ∧ Proposal.state p = Some PROPOSAL_STATE_EXECUTED
    ∧ Proposal.executionETA p = None
    ∧ Governance.proposalsQueued (governanceOf w')
      = Governance.proposalsQueued (governanceOf w) - 1
    ∧ Governance.proposalsExecuted (governanceOf w')
      = Governance.proposalsExecuted (governanceOf w) + 1.
Proof.
  intros WK.
  pose proof (proposalOf_id w (toString (ProposalExecuted.proposalId x)) WK)
    as Hid.
  pose proof (governanceOf_id w WK) as Hg.
  destruct WK as (W1 & W2 & W3 & W4 & W5).
  unfold_handlers. unfold_store. unfold_consts.
  unfold proposalOf, governanceOf, WellKeyed in *. simpl.
  eexists _, _. split; [reflexivity|]. simpl.
  rewrite Hid, Hg, !lookup_insert_eq. solve_WellKeyed.
Qed.

(** C8. ProposalCreated, then ProposalQueued, then ProposalExecuted for
    one proposal id: all three are processed, the proposal ends in state
    Executed with no [executionETA], [proposalsQueued] is what it was
    before the three events and [proposalsExecuted] is one more. *)
Theorem C8_created_queued_executed
    (c : ProposalCreated.t) (q : ProposalQueued.t) (x : ProposalExecuted.t)
    (w : World) :
  WellKeyed w →
  ProposalQueued.proposalId q = ProposalCreated.proposalId c →
  ProposalExecuted.proposalId x = ProposalCreated.proposalId c →
  ∃ w' p,
    processEvents [EvProposalCreated c; EvProposalQueued q;
                   EvProposalExecuted x] w = Some w'
    ∧ proposals w' !! toString (ProposalCreated.proposalId c) = Some p
    ∧ Proposal.state p = Some PROPOSAL_STATE_EXECUTED
    ∧ Proposal.executionETA p = None
    ∧ Governance.proposalsQueued (governanceOf w')
      = Governance.proposalsQueued (governanceOf w)
    ∧ Governance.proposalsExecuted (governanceOf w')
      = Governance.proposalsExecuted (governanceOf w) + 1.
Proof.
  intros WK Hq Hx.
  destruct (handleProposalCreated_spec c w WK)
    as (w1 & p1 & Hrun1 & WK1 & _ & Hq1 & Hx1).
  destruct (handleProposalQueued_spec q w1 WK1)
    as (w2 & p2 & Hrun2 & WK2 & _ & _ & _ & Hq2 & Hx2).
  destruct (handleProposalExecuted_spec x w2 WK2)
    as (w3 & p3 & Hrun3 & WK3 & Hp3 & Hst & Heta & Hq3 & Hx3).
  exists w3, p3.
  rewrite processEvents_cons.
  change (dispatch (EvProposalCreated c)) with (handleProposalCreated c).
  rewrite Hrun1, processEvents_cons.
  change (dispatch (EvProposalQueued q)) with (handleProposalQueued q).
  rewrite Hrun2, processEvents_cons.
  change (dispatch (EvProposalExecuted x)) with (handleProposalExecuted x).
  rewrite Hrun3.
  change (processEvents [] w3) with (Some w3).
  rewrite <- Hx.
  repeat split; auto; lia.
Qed.

Lemma C8_witness :
  ∃ w' p,
    processEvents [EvProposalCreated sampleProposal;
                   EvProposalQueued sampleQueued;
                   EvProposalExecuted sampleExecuted] emptyWorld = Some w'
    ∧ proposals w' !! "42" = Some p
    ∧ Proposal.state p = Some PROPOSAL_STATE_EXECUTED
    ∧ Proposal.executionETA p = None
    ∧ Governance.proposalsQueued (governanceOf w') = 0
    ∧ Governance.proposalsExecuted (governanceOf w') = 1.
Proof.
  apply (C8_created_queued_executed sampleProposal sampleQueued
           sampleExecuted emptyWorld).
  - by_evaluation.
  - reflexivity.
  - reflexivity.
Defined.

(** ** handleVoteCast *)

(** C6. For every VoteCast event whose support code is none of 0, 1, 2:
    the handler completes without a report, the proposal it saves has the
    three tallies of the proposal it read, and the Vote saved under
    "voter-proposalId" carries the choice computed from the code, which
    for such a code is the code itself. *)
Theorem C6_unrecognized_support_keeps_tallies (e : VoteCast.t) (w : World) :
  WellKeyed w →
  VoteCast.support e ≠ 0 → VoteCast.support e ≠ 1 → VoteCast.support e ≠ 2 →
  let pid := toString (VoteCast.proposalId e) in
  let vid := toHexString (VoteCast.voter e) +:+ "-" +:+ pid in
  ∃ w' p v,
    exec (handleVoteCast e) w = Some w'
    ∧ proposals w' !! pid = Some p
    ∧ Proposal.againstVotes p = Proposal.againstVotes (proposalOf w pid)
    ∧ Proposal.forVotes p = Proposal.forVotes (proposalOf w pid)
    ∧ Proposal.abstainVotes p = Proposal.abstainVotes (proposalOf w pid)
    ∧ votes w' !! vid = Some v
    ∧ Vote.choice v = Some (getVoteChoiceByValue (VoteCast.support e))
    ∧ getVoteChoiceByValue (VoteCast.support e)
      = UnrecognizedChoice (VoteCast.support e)
    ∧ logs w' = logs w.
Proof.
  intros WK H0 H1 H2 pid vid. subst pid vid.
  pose proof (proposalOf_id w (toString (VoteCast.proposalId e)) WK) as Hid.
  assert (getVoteChoiceByValue (VoteCast.support e)
          = UnrecognizedChoice (VoteCast.support e)) as Hchoice.
  { unfold getVoteChoiceByValue. by rewrite !decide_False by done. }
  unfold_handlers. unfold_store. unfold proposalOf in *. simpl.
  rewrite !(decide_False (P := VoteCast.support e = 0)) by done.
  rewrite !(decide_False (P := VoteCast.support e = 1)) by done.
  rewrite !(decide_False (P := VoteCast.support e = 2)) by done.
  case_decide; eexists _, _, _; (split; [reflexivity|]); simpl;
    rewrite ?Hid, !lookup_insert_eq; repeat split; done.
Qed.

Lemma C6_witness :
  ∃ w' p v,
    exec (handleVoteCast (voteCast alice 7)) emptyWorld = Some w'
    ∧ proposals w' !! "42" = Some p
    ∧ Proposal.againstVotes p = 0
    ∧ Proposal.forVotes p = 0
    ∧ Proposal.abstainVotes p = 0
    ∧ votes w' !! (alice +:+ "-42") = Some v
    ∧ Vote.choice v = Some (getVoteChoiceByValue 7)
    ∧ getVoteChoiceByValue 7 = UnrecognizedChoice 7
    ∧ logs w' = [].
Proof.
  apply (C6_unrecognized_support_keeps_tallies (voteCast alice 7) emptyWorld).
  - by_evaluation.
  - by_evaluation.
  - by_evaluation.
  - by_evaluation.
Defined.

(** Votes with the codes 0, 1 and 2 on a Pending proposal. *)
Example three_votes_on_pending :
  ∃ w0 w p,
    exec (handleProposalCreated sampleProposal) emptyWorld = Some w0
    ∧ Proposal.state (proposalOf w0 "42") = Some PROPOSAL_STATE_PENDING
    ∧ processEvents [EvVoteCast (voteCast alice 0); EvVoteCast (voteCast bob 1);
                     EvVoteCast (voteCast carol 2)] w0 = Some w
    ∧ proposals w !! "42" = Some p
    ∧ Proposal.state p = Some PROPOSAL_STATE_ACTIVE
    ∧ Proposal.againstVotes p = 1
    ∧ Proposal.forVotes p = 1
    ∧ Proposal.abstainVotes p = 1
    ∧ dom (votes w)
      = {[ alice +:+ "-42"; bob +:+ "-42"; carol +:+ "-42" ]}.
Proof.
  eexists _, _, _. split; [vm_compute; reflexivity|].
  split; [vm_compute; reflexivity|].
  split; [vm_compute; reflexivity|].
  split; [vm_compute; reflexivity|].
  repeat split; vm_compute; reflexivity.
Qed.

(** For every VoteCast event the Delegate saved for the voter is the
    freshly constructed record with its [numberVotes] plus one: whatever
    the store held for that address, afterwards [numberVotes] is 1 and
    [delegatedVotesRaw], [delegatedVotes] and
    [tokenHoldersRepresentedAmount] are the defaults. *)
Lemma handleVoteCast_resets_delegate (e : VoteCast.t) (w : World) :
  ∃ w' d,
    exec (handleVoteCast e) w = Some w'
    ∧ delegates w' !! toHexString (VoteCast.voter e) = Some d
    ∧ d = Delegate.set_numberVotes
            (i32_add (Delegate.numberVotes
                        (Delegate.new (toHexString (VoteCast.voter e)))) 1)
            (Delegate.new (toHexString (VoteCast.voter e)))
    ∧ Delegate.numberVotes d = 1
    ∧ Delegate.delegatedVotesRaw d = 0
    ∧ Delegate.delegatedVotes d = BIGDECIMAL_ZERO
    ∧ Delegate.tokenHoldersRepresentedAmount d = 0.
Proof.
  unfold_handlers. unfold_store. simpl.
  eexists _, _. split; [reflexivity|]. simpl.
  rewrite lookup_insert_eq. repeat split; reflexivity.
Qed.

(** C7 (the code departs from it). The handler's comment says "Add 1 to
    participant's proposal voting count". [alice] has cast 4 votes, holds
    500 delegated votes and represents 3 holders: after her next
    VoteCast the store holds [numberVotes] 1, not 5, the other fields
    being reset to their defaults as the claim says; and three votes
    cast by one voter from the empty store leave [numberVotes] at 1. *)
Theorem C7_vote_count_restarts_at_one :
  Delegate.numberVotes (delegateOf delegateWorld alice) = 4
  ∧ (∃ w, exec (handleVoteCast (voteCast alice 1)) delegateWorld = Some w
          ∧ Delegate.numberVotes (delegateOf w alice) = 1
          ∧ Delegate.numberVotes (delegateOf w alice) ≠ 4 + 1
          ∧ Delegate.delegatedVotesRaw (delegateOf w alice) = 0
          ∧ Delegate.tokenHoldersRepresentedAmount (delegateOf w alice) = 0)
  ∧ ∃ w, processEvents [EvVoteCast (voteCast alice 1);
                        EvVoteCast (voteCast alice 0);
                        EvVoteCast (voteCast alice 2)] emptyWorld = Some w
         ∧ Delegate.numberVotes (delegateOf w alice) = 1.
Proof.
  split; [reflexivity|]. split.
  - eexists. split; [vm_compute; reflexivity|].
    split; [vm_compute; reflexivity|].
    split; [vm_compute; discriminate|].
    split; vm_compute; reflexivity.
  - eexists. split; [vm_compute; reflexivity|]. vm_compute. reflexivity.
Qed.

(** A delegate with 500 votes, 3 represented holders and 4 votes cast
    is replaced by a record with one vote cast and nothing else. *)
Example vote_cast_discards_delegate_state :
  Delegate.delegatedVotesRaw (delegateOf delegateWorld alice) = 500
  ∧ Delegate.tokenHoldersRepresentedAmount (delegateOf delegateWorld alice) = 3
  ∧ Delegate.numberVotes (delegateOf delegateWorld alice) = 4
  ∧ ∃ w, exec (handleVoteCast (voteCast alice 1)) delegateWorld = Some w
         ∧ Delegate.delegatedVotesRaw (delegateOf w alice) = 0
         ∧ Delegate.tokenHoldersRepresentedAmount (delegateOf w alice) = 0
         ∧ Delegate.numberVotes (delegateOf w alice) = 1.
Proof.
  repeat split; try (vm_compute; reflexivity).
  eexists. split; [vm_compute; reflexivity|].
  repeat split; vm_compute; reflexivity.
Qed.

(** ** Every handler keeps the store keyed by id *)

Lemma dispatch_WellKeyed ev w w' :
  WellKeyed w → exec (dispatch ev) w = Some w' → WellKeyed w'.
Proof.
  intros WK Hrun. destruct ev as [e|e|e|e|e|e|e|e|e|e]; simpl in Hrun.
  - pose proof (proposalOf_id w (toString (ProposalCanceled.proposalId e)) WK)
      as Hid.
    pose proof (governanceOf_id w WK) as Hg.
    destruct WK as (W1 & W2 & W3 & W4 & W5).
    unfold_handlers. unfold_store.
    unfold proposalOf, governanceOf, WellKeyed in *. simpl in *.
    injection Hrun as <-. solve_WellKeyed.
  - destruct (handleProposalCreated_spec e w WK)
      as (w2 & ? & Hrun2 & WK' & _).
    congruence.
  - destruct (handleProposalExecuted_spec e w WK)
      as (w2 & ? & Hrun2 & WK' & _).
    congruence.
  - destruct (handleProposalQueued_spec e w WK)
      as (w2 & ? & Hrun2 & WK' & _).
    congruence.
  - destruct WK as (W1 & W2 & W3 & W4 & W5).
    unfold_handlers. unfold_store. unfold WellKeyed in *. simpl in *.
    injection Hrun as <-. solve_WellKeyed.
  - unfold_handlers. unfold_store. by injection Hrun as <-.
  - pose proof (proposalOf_id w (toString (VoteCast.proposalId e)) WK) as Hid.
    destruct WK as (W1 & W2 & W3 & W4 & W5).
    unfold_handlers. unfold_store.
    unfold proposalOf, WellKeyed in *. simpl in *.
    injection Hrun as <-.
    repeat case_decide; solve_WellKeyed.
  - pose proof (holderOf_id w (toHexString (DelegateChanged.delegator e)) WK)
      as Hh.
    pose proof (delegateOf_id w
                  (toHexString (DelegateChanged.fromDelegate e)) WK) as Hp.
    pose proof (delegateOf_id w
                  (toHexString (DelegateChanged.toDelegate e)) WK) as Hn.
    destruct WK as (W1 & W2 & W3 & W4 & W5).
    unfold_handlers. unfold_store.
    unfold holderOf, delegateOf, WellKeyed in *. simpl in *.
    injection Hrun as <-. solve_WellKeyed.
  - destruct (handleDelegateVotesChanged_spec e w WK)
      as (w2 & ? & Hrun2 & WK' & _).
    congruence.
  - destruct (handleTransfer_spec e w WK) as (w2 & ? & ? & Hrun2 & WK' & _).
    congruence.
Qed.

(** Every world the replay reaches from the empty store is keyed by id. *)
Lemma processEvents_WellKeyed evs : ∀ w w',
  WellKeyed w → processEvents evs w = Some w' → WellKeyed w'.
Proof.
  induction evs as [|ev evs IH]; intros w w' WK Hrun.
  - by injection Hrun as <-.
  - rewrite processEvents_cons in Hrun.
    destruct (exec (dispatch ev) w) as [w1|] eqn:E; [|done].
    eauto using dispatch_WellKeyed.
Qed.

(** ** The MasterChef reward mapping *)

(** C10. Whatever the reward-accounting collaborator: [handleDeposit]
    hands it the event's pool id and its amount unchanged;
    [handleWithdraw] and [handleEmergencyWithdraw] hand it the pool id
    and the amount negated. *)
Theorem C10_reward_sign_selection {St} `{!MasterChef.RewardAccounting St}
    (ctx : EventContext) (user : Address) (pid amount : BigInt) :
  MasterChef.handleDeposit
    {| MasterChef.deposit_context := ctx; MasterChef.deposit_user := user;
       MasterChef.deposit_pid := pid; MasterChef.deposit_amount := amount |}
  = MasterChef.handleReward ctx pid amount
  ∧ MasterChef.handleWithdraw
      {| MasterChef.withdraw_context := ctx;
         MasterChef.withdraw_user := user;
         MasterChef.withdraw_pid := pid;
         MasterChef.withdraw_amount := amount |}
    = MasterChef.handleReward ctx pid (- amount)
  ∧ MasterChef.handleEmergencyWithdraw
      {| MasterChef.emergency_context := ctx;
         MasterChef.emergency_user := user;
         MasterChef.emergency_pid := pid;
         MasterChef.emergency_amount := amount |}
    = MasterChef.handleReward ctx pid (- amount).
Proof.
  unfold MasterChef.handleDeposit, MasterChef.handleWithdraw,
    MasterChef.handleEmergencyWithdraw, MasterChef.BIGINT_NEG_ONE. simpl.
  replace (amount * -1) with (- amount) by lia. done.
Qed.

(** The calls a recording collaborator receives for a deposit of 40 into
    pool 3, a withdrawal of 15 and an emergency withdrawal of 25. *)
Example reward_calls_recorded :
  MasterChef.handleEmergencyWithdraw
    {| MasterChef.emergency_context := sampleContext;
       MasterChef.emergency_user := alice;
       MasterChef.emergency_pid := 3; MasterChef.emergency_amount := 25 |}
    (MasterChef.handleWithdraw
       {| MasterChef.withdraw_context := sampleContext;
          MasterChef.withdraw_user := alice;
          MasterChef.withdraw_pid := 3; MasterChef.withdraw_amount := 15 |}
       (MasterChef.handleDeposit
          {| MasterChef.deposit_context := sampleContext;
             MasterChef.deposit_user := alice;
             MasterChef.deposit_pid := 3; MasterChef.deposit_amount := 40 |}
          []))
  = [(sampleContext, 3, 40); (sampleContext, 3, -15); (sampleContext, 3, -25)].
Proof. reflexivity. Qed.

(** * Further properties *)

(** ** Replay never stops, and what it does to the counters *)

Lemma dispatch_total ev w : is_Some (exec (dispatch ev) w).
Proof.
  destruct ev as [e|e|e|e|e|e|e|e|e|e]; simpl;
    try apply handleTransfer_total;
    unfold_handlers; unfold_store; simpl; eauto.
Qed.

Lemma dispatch_governance_counters ev w w' :
  WellKeyed w → isQuorumNumeratorUpdated ev = false →
  exec (dispatch ev) w = Some w' →
  Governance.proposals (governanceOf w')
    = Governance.proposals (governanceOf w)
      + (if isProposalCreated ev then 1 else 0)
  ∧ Governance.proposalsCanceled (governanceOf w')
    = Governance.proposalsCanceled (governanceOf w)
      + (if isProposalCanceled ev then 1 else 0)
  ∧ Governance.proposalsQueued (governanceOf w')
    = Governance.proposalsQueued (governanceOf w)
      + (if isProposalQueued ev then 1 else 0)
      - (if isProposalExecuted ev then 1 else 0)
  ∧ Governance.proposalsExecuted (governanceOf w')
    = Governance.proposalsExecuted (governanceOf w)
      + (if isProposalExecuted ev then 1 else 0).
Proof.
  intros WK Hq Hrun.
  pose proof (governanceOf_id w WK) as Hg.
  destruct ev as [e|e|e|e|e|e|e|e|e|e]; simpl in Hq; try discriminate;
    simpl in Hrun; simpl.
  all: unfold handleTransfer, handleTransfer_from, handleTransfer_to in *.
  all: unfold_handlers; unfold_store; unfold_consts; unfold governanceOf in *;
    simpl in *.
  all: repeat (case_decide; simpl in * ).
  all: injection Hrun as <-; simpl; rewrite ?Hg, ?lookup_insert_eq; simpl.
  all: repeat split; lia.
Qed.

Lemma processEvents_total evs : ∀ w, is_Some (processEvents evs w).
Proof.
  induction evs as [|ev evs IH]; intros w; [by eexists|].
  rewrite processEvents_cons.
  destruct (dispatch_total ev w) as [w1 ->]. apply IH.
Qed.

Lemma lifecycle_counters_from evs : ∀ w w',
  WellKeyed w →
  Forall (λ ev, isQuorumNumeratorUpdated ev = false) evs →
  processEvents evs w = Some w' →
  Governance.proposals (governanceOf w')
    = Governance.proposals (governanceOf w)
      + countEvents isProposalCreated evs
  ∧ Governance.proposalsCanceled (governanceOf w')
    = Governance.proposalsCanceled (governanceOf w)
      + countEvents isProposalCanceled evs
  ∧ Governance.proposalsQueued (governanceOf w')
    = Governance.proposalsQueued (governanceOf w)
      + countEvents isProposalQueued evs
      - countEvents isProposalExecuted evs
  ∧ Governance.proposalsExecuted (governanceOf w')
    = Governance.proposalsExecuted (governanceOf w)
      + countEvents isProposalExecuted evs.
Proof.
  induction evs as [|ev evs IH]; intros w w' WK Hq Hrun.
  { injection Hrun as <-. cbn [countEvents]. repeat split; lia. }
  apply Forall_cons in Hq as [Hev Hq].
  rewrite processEvents_cons in Hrun.
  destruct (exec (dispatch ev) w) as [w1|] eqn:Hstep; [|done].
  pose proof (dispatch_WellKeyed ev w w1 WK Hstep) as WK1.
  destruct (dispatch_governance_counters ev w w1 WK Hev Hstep)
    as (H1 & H2 & H3 & H4).
  destruct (IH w1 w' WK1 Hq Hrun) as (I1 & I2 & I3 & I4).
  cbn [countEvents]. repeat split; lia.
Qed.

(** X20. For every log without QuorumNumeratorUpdated events, replayed
    from the empty store: the replay completes, [proposals] is the number
    of ProposalCreated events, [proposalsCanceled] the number of
    ProposalCanceled events, [proposalsExecuted] the number of
    ProposalExecuted events, and [proposalsQueued] the number of
    ProposalQueued events minus the number of ProposalExecuted events
    (negative when more were executed than queued). *)
Theorem lifecycle_counters_count_events (evs : list Event) :
  Forall (λ ev, isQuorumNumeratorUpdated ev = false) evs →
  ∃ w,
    processEvents evs emptyWorld = Some w
    ∧ Governance.proposals (governanceOf w)
      = countEvents isProposalCreated evs
    ∧ Governance.proposalsCanceled (governanceOf w)
      = countEvents isProposalCanceled evs
    ∧ Governance.proposalsQueued (governanceOf w)
      = countEvents isProposalQueued evs - countEvents isProposalExecuted evs
    ∧ Governance.proposalsExecuted (governanceOf w)
      = countEvents isProposalExecuted evs.
Proof.
  intros Hq. destruct (processEvents_total evs emptyWorld) as [w Hrun].
  exists w. split; [done|].
  destruct (lifecycle_counters_from evs emptyWorld w WellKeyed_empty Hq Hrun)
    as (H1 & H2 & H3 & H4).
  change (governanceOf emptyWorld) with (Governance.new GOVERNANCE_NAME) in *.
  simpl in *. repeat split; lia.
Qed.

Lemma handleTransfer_holders e w :
  WellKeyed w →
  let f := toHexString (Transfer.from e) in
  let t := toHexString (Transfer.to e) in
  let v := Transfer.value e in
  ∃ w',
    exec (handleTransfer e) w = Some w'
    ∧ tokenHolders w'
      = <[t:=credited v (holderOf w t)]>
          (if decide (f ≠ ZERO_ADDRESS)
           then <[f:=debited v (holderOf w f)]> (tokenHolders w)
           else tokenHolders w)
    ∧ delegates w' = delegates w
    ∧ proposals w' = proposals w
    ∧ votes w' = votes w.
Proof.
  intros WK f t v. subst f t v.
  pose proof (holderOf_id w (toHexString (Transfer.from e)) WK) as Hf.
  pose proof (holderOf_id w (toHexString (Transfer.to e)) WK) as Ht.
  unfold handleTransfer, handleTransfer_from, handleTransfer_to.
  unfold_store. unfold holderOf, debited, credited in *. simpl.
  repeat (case_decide; simpl); eexists; (split; [reflexivity|]); simpl;
    rewrite ?Hf, ?Ht; repeat split; try reflexivity; try done.
Qed.

(** Events other than Transfer write at most one holder, and only its
    [delegate] reference. *)
Lemma dispatch_other_tokenHolders ev w w' :
  isTransfer ev = false → exec (dispatch ev) w = Some w' →
  tokenHolders w' = tokenHolders w
  ∨ ∃ a d, tokenHolders w'
           = <[TokenHolder.id (holderOf w a)
               := TokenHolder.set_delegate d (holderOf w a)]> (tokenHolders w).
Proof.
  intros Ht Hrun.
  destruct ev as [e|e|e|e|e|e|e|e|e|e]; simpl in Ht; try discriminate;
    simpl in Hrun.
  all: unfold_handlers; unfold_store; simpl in *.
  all: injection Hrun as <-; simpl; auto.
  right. eexists _, _. reflexivity.
Qed.

Lemma debited_fields v h :
  TokenHolder.id (debited v h) = TokenHolder.id h
  ∧ TokenHolder.tokenBalanceRaw (debited v h)
    = TokenHolder.tokenBalanceRaw h - v
  ∧ TokenHolder.totalTokensHeldRaw (debited v h)
    = TokenHolder.totalTokensHeldRaw h
  ∧ TokenHolder.delegate (debited v h) = TokenHolder.delegate h.
Proof. done. Qed.

Lemma credited_fields v h :
  TokenHolder.id (credited v h) = TokenHolder.id h
  ∧ TokenHolder.tokenBalanceRaw (credited v h)
    = TokenHolder.tokenBalanceRaw h + v
  ∧ TokenHolder.totalTokensHeldRaw (credited v h)
    = TokenHolder.totalTokensHeldRaw h + v
  ∧ TokenHolder.delegate (credited v h) = TokenHolder.delegate h.
Proof. done. Qed.

Lemma holderOf_total w a :
  TokenHolder.totalTokensHeldRaw (holderOf w a) = totalHeldOf w a.
Proof. unfold holderOf, totalHeldOf. by destruct (tokenHolders w !! a). Qed.

Lemma BalanceWithinTotal_holderOf w a :
  BalanceWithinTotal w →
  TokenHolder.tokenBalanceRaw (holderOf w a)
    ≤ TokenHolder.totalTokensHeldRaw (holderOf w a)
  ∧ 0 ≤ TokenHolder.totalTokensHeldRaw (holderOf w a).
Proof.
  intros H. unfold holderOf.
  destruct (tokenHolders w !! a) as [h|] eqn:E; simpl; [|lia].
  by apply H in E.
Qed.

Lemma dispatch_BalanceWithinTotal ev w w' :
  WellKeyed w → BalanceWithinTotal w → NonNegativeValue ev →
  exec (dispatch ev) w = Some w' → BalanceWithinTotal w'.
Proof.
  intros WK HB Hv Hrun.
  destruct (isTransfer ev) eqn:Ht.
  - destruct ev; try discriminate. simpl in Hv, Hrun.
    destruct (handleTransfer_holders e w WK) as (w2 & Hrun2 & Hth & _).
    rewrite Hrun in Hrun2. injection Hrun2 as <-.
    unfold BalanceWithinTotal. rewrite Hth.
    pose proof (BalanceWithinTotal_holderOf w (toHexString (Transfer.from e)) HB).
    pose proof (BalanceWithinTotal_holderOf w (toHexString (Transfer.to e)) HB).
    apply map_Forall_insert_2; [simpl; lia|].
    case_decide; [|done].
    apply map_Forall_insert_2; [simpl; lia|done].
  - unfold BalanceWithinTotal.
    destruct (dispatch_other_tokenHolders ev w w' Ht Hrun) as [->|(a & d & ->)];
      [done|].
    apply map_Forall_insert_2; [|done].
    apply (BalanceWithinTotal_holderOf w a HB).
Qed.

Lemma history_BalanceWithinTotal evs : ∀ w,
  WellKeyed w → BalanceWithinTotal w → Forall NonNegativeValue evs →
  length (history evs w) = length evs
  ∧ Forall BalanceWithinTotal (history evs w).
Proof.
  induction evs as [|ev evs IH]; intros w WK HB Hv.
  { split; [done|constructor]. }
  apply Forall_cons in Hv as [Hev Hv].
  rewrite history_cons.
  destruct (dispatch_total ev w) as [w1 Hrun]. rewrite Hrun.
  pose proof (dispatch_WellKeyed ev w w1 WK Hrun) as WK1.
  pose proof (dispatch_BalanceWithinTotal ev w w1 WK HB Hev Hrun) as HB1.
  destruct (IH w1 WK1 HB1 Hv) as [Hlen Hall].
  split; [simpl; by rewrite Hlen | by constructor].
Qed.

(** X8. For every log whose Transfer events carry values that are not
    negative, replayed from the empty store: every event is processed and
    in every world reached no holder has a [tokenBalanceRaw] above its
    [totalTokensHeldRaw], nor a negative [totalTokensHeldRaw]. *)
Theorem balance_never_exceeds_total_held (evs : list Event) :
  Forall NonNegativeValue evs →
  length (history evs emptyWorld) = length evs
  ∧ Forall BalanceWithinTotal (history evs emptyWorld).
Proof.
  apply history_BalanceWithinTotal; [apply WellKeyed_empty|].
  apply map_Forall_empty.
Qed.





Lemma handleTransfer_balances e w w' :
  WellKeyed w → exec (handleTransfer e) w = Some w' →
  ∀ x, balanceOf w' x
       = if decide (x = toHexString (Transfer.to e))
         then balanceOf w x + Transfer.value e
         else if decide (x = toHexString (Transfer.from e)
                         ∧ x ≠ ZERO_ADDRESS)
         then balanceOf w x - Transfer.value e
         else balanceOf w x.
Proof.
  intros WK Hrun x.
  destruct (handleTransfer_holders e w WK) as (w2 & Hrun2 & Hth & _).
  rewrite Hrun in Hrun2. injection Hrun2 as <-.
  unfold balanceOf at 1. rewrite Hth.
  destruct (decide (x = toHexString (Transfer.to e))) as [->|Hxt].
  { rewrite lookup_insert_eq. simpl. by rewrite holderOf_balance. }
  rewrite lookup_insert_ne by done.
  destruct (decide (toHexString (Transfer.from e) ≠ ZERO_ADDRESS)) as [Hz|Hz].
  - destruct (decide (x = toHexString (Transfer.from e))) as [->|Hxf].
    + rewrite lookup_insert_eq, decide_True by done. simpl.
      by rewrite holderOf_balance.
    + rewrite lookup_insert_ne by done.
      rewrite decide_False by (intros [? _]; done). done.
  - rewrite decide_False; [done|].
    intros [-> Hx]. done.
Qed.

(** X4. A transfer between two different non-zero addresses followed by
    the transfer of the same value back leaves every balance as it was. *)
Theorem transfer_there_and_back_restores_balances
    (e1 e2 : Transfer.t) (w : World) :
  WellKeyed w →
  toHexString (Transfer.from e1) ≠ ZERO_ADDRESS →
  toHexString (Transfer.to e1) ≠ ZERO_ADDRESS →
  toHexString (Transfer.from e1) ≠ toHexString (Transfer.to e1) →
  Transfer.from e2 = Transfer.to e1 →
  Transfer.to e2 = Transfer.from e1 →
  Transfer.value e2 = Transfer.value e1 →
  ∃ w',
    processEvents [EvTransfer e1; EvTransfer e2] w = Some w'
    ∧ ∀ x, balanceOf w' x = balanceOf w x.
Proof.
  intros WK Hf Ht Hne H1 H2 H3.
  destruct (handleTransfer_total e1 w) as [w1 Hrun1].
  pose proof (dispatch_WellKeyed (EvTransfer e1) w w1 WK Hrun1) as WK1.
  destruct (handleTransfer_total e2 w1) as [w2 Hrun2].
  exists w2. split.
  { rewrite processEvents_cons.
    change (dispatch (EvTransfer e1)) with (handleTransfer e1).
    rewrite Hrun1, processEvents_cons.
    change (dispatch (EvTransfer e2)) with (handleTransfer e2).
    by rewrite Hrun2. }
  intros x.
  rewrite (handleTransfer_balances e2 w1 w2 WK1 Hrun2 x).
  rewrite !(handleTransfer_balances e1 w w1 WK Hrun1).
  rewrite H1, H2, H3.
  repeat case_decide; subst; try lia; try done.
  all: exfalso; intuition congruence.
Qed.

(** X5. [handleTransfer] reports exactly the overdrafts: when [from] is
    not the zero address and the value exceeds its balance the log grows
    by the one negative-balance report, otherwise the log is unchanged
    (a mint never reports). *)
Theorem transfer_reports_exactly_overdrafts (e : Transfer.t) (w : World) :
  WellKeyed w →
  let f := toHexString (Transfer.from e) in
  let b := balanceOf w f in
  ∃ w',
    exec (handleTransfer e) w = Some w'
    ∧ logs w'
      = if decide (f ≠ ZERO_ADDRESS ∧ b < Transfer.value e)
        then logs w ++ [negativeBalanceReport f (b - Transfer.value e)]
        else logs w.
Proof.
  intros WK f b. subst f b.
  destruct (handleTransfer_spec e w WK)
    as (w' & hf & ht & Hrun & _ & _ & _ & _ & _ & Hlog).
  exists w'. split; [done|]. rewrite Hlog.
  repeat case_decide; rewrite ?app_nil_r; try done; exfalso; intuition lia.
Qed.

Lemma handleTransfer_governance_frame e w w' :
  WellKeyed w → exec (handleTransfer e) w = Some w' →
  Governance.proposals (governanceOf w')
    = Governance.proposals (governanceOf w)
  ∧ Governance.proposalsCanceled (governanceOf w')
    = Governance.proposalsCanceled (governanceOf w)
  ∧ Governance.proposalsQueued (governanceOf w')
    = Governance.proposalsQueued (governanceOf w)
  ∧ Governance.proposalsExecuted (governanceOf w')
    = Governance.proposalsExecuted (governanceOf w)
  ∧ Governance.currentDelegates (governanceOf w')
    = Governance.currentDelegates (governanceOf w)
  ∧ Governance.delegatedVotesRaw (governanceOf w')
    = Governance.delegatedVotesRaw (governanceOf w)
  ∧ Governance.delegatedVotes (governanceOf w')
    = Governance.delegatedVotes (governanceOf w)
  ∧ Governance.quorumNumerator (governanceOf w')
    = Governance.quorumNumerator (governanceOf w).
Proof.
  intros WK Hrun.
  pose proof (governanceOf_id w WK) as Hg.
  unfold handleTransfer, handleTransfer_from, handleTransfer_to in *.
  unfold_store; unfold_consts; unfold governanceOf in *; simpl in *.
  repeat (case_decide; simpl in * ).
  all: injection Hrun as <-; simpl; rewrite ?Hg, ?lookup_insert_eq; simpl.
  all: repeat split; reflexivity.
Qed.

(** X6. [handleTransfer] writes no TokenHolder other than [from] and
    [to], keeps the [delegate] reference of every holder, writes no
    Delegate, Proposal or Vote, and leaves every governance counter but
    [currentTokenHolders] as it was. *)
Theorem transfer_writes_only_its_two_holders (e : Transfer.t) (w : World) :
  WellKeyed w →
  ∃ w',
    exec (handleTransfer e) w = Some w'
    ∧ (∀ x, x ≠ toHexString (Transfer.from e) →
            x ≠ toHexString (Transfer.to e) →
            tokenHolders w' !! x = tokenHolders w !! x)
    ∧ (∀ x, TokenHolder.delegate (holderOf w' x)
            = TokenHolder.delegate (holderOf w x))
    ∧ delegates w' = delegates w
    ∧ proposals w' = proposals w
    ∧ votes w' = votes w
    ∧ Governance.proposals (governanceOf w')
      = Governance.proposals (governanceOf w)
    ∧ Governance.proposalsCanceled (governanceOf w')
      = Governance.proposalsCanceled (governanceOf w)
    ∧ Governance.proposalsQueued (governanceOf w')
      = Governance.proposalsQueued (governanceOf w)
    ∧ Governance.proposalsExecuted (governanceOf w')
      = Governance.proposalsExecuted (governanceOf w)
    ∧ Governance.currentDelegates (governanceOf w')
      = Governance.currentDelegates (governanceOf w)
    ∧ Governance.delegatedVotesRaw (governanceOf w')
      = Governance.delegatedVotesRaw (governanceOf w)
    ∧ Governance.quorumNumerator (governanceOf w')
      = Governance.quorumNumerator (governanceOf w).
Proof.
  intros WK.
  destruct (handleTransfer_holders e w WK) as (w' & Hrun & Hth & Hd & Hp & Hv).
  destruct (handleTransfer_governance_frame e w w' WK Hrun)
    as (G1 & G2 & G3 & G4 & G5 & G6 & _ & G8).
  exists w'. split; [done|].
  split; [|split]; [| |by repeat split].
  - intros x Hxf Hxt. rewrite Hth, lookup_insert_ne by done.
    case_decide; [by rewrite lookup_insert_ne|done].
  - intros x. unfold holderOf at 1. rewrite Hth.
    destruct (decide (toHexString (Transfer.to e) = x)) as [<-|Hxt].
    { by rewrite lookup_insert_eq. }
    rewrite lookup_insert_ne by done.
    case_decide; [|done].
    destruct (decide (toHexString (Transfer.from e) = x)) as [<-|Hxf].
    { by rewrite lookup_insert_eq. }
    by rewrite lookup_insert_ne.
Qed.

Lemma handleTransfer_totals (e : Transfer.t) (w : World) :
  WellKeyed w →
  ∃ w',
    exec (handleTransfer e) w = Some w'
    ∧ ∀ x, totalHeldOf w' x
           = if decide (x = toHexString (Transfer.to e))
             then totalHeldOf w x + Transfer.value e
             else totalHeldOf w x.
Proof.
  intros WK.
  destruct (handleTransfer_holders e w WK) as (w' & Hrun & Hth & _).
  exists w'. split; [done|]. intros x.
  unfold totalHeldOf at 1. rewrite Hth.
  destruct (decide (x = toHexString (Transfer.to e))) as [->|Hxt].
  { rewrite lookup_insert_eq. simpl. by rewrite holderOf_total. }
  rewrite lookup_insert_ne by done.
  case_decide; [|done].
  destruct (decide (toHexString (Transfer.from e) = x)) as [<-|Hxf].
  { rewrite lookup_insert_eq. simpl. by rewrite holderOf_total. }
  by rewrite lookup_insert_ne.
Qed.

Lemma zeroCrossing_same b : zeroCrossing b b = 0.
Proof. unfold zeroCrossing. repeat case_decide; lia. Qed.

(** X9. A Transfer of value zero changes no balance, no
    [totalTokensHeldRaw], not [currentTokenHolders] and not the number of
    holders with a positive balance, whatever [from] and [to] are. *)
Theorem zero_value_transfer_changes_no_count (e : Transfer.t) (w : World) :
  WellKeyed w → Transfer.value e = 0 →
  ∃ w',
    exec (handleTransfer e) w = Some w'
    ∧ (∀ x, balanceOf w' x = balanceOf w x)
    ∧ (∀ x, totalHeldOf w' x = totalHeldOf w x)
    ∧ Governance.currentTokenHolders (governanceOf w')
      = Governance.currentTokenHolders (governanceOf w)
    ∧ positiveTokenHolders w' = positiveTokenHolders w.
Proof.
  intros WK Hv.
  destruct (handleTransfer_spec e w WK)
    as (w' & hf & ht & Hrun & _ & Hcnt & Hbf & Hbt & Hth & _).
  destruct (handleTransfer_totals e w WK) as (w2 & Hrun2 & Htot).
  rewrite Hrun in Hrun2. injection Hrun2 as <-.
  exists w'. split; [done|].
  rewrite Hv in Hcnt, Hbf, Hbt.
  rewrite Z.sub_0_r, Z.add_0_r in Hcnt.
  rewrite Z.sub_0_r in Hbf. rewrite Z.add_0_r in Hbt.
  rewrite !zeroCrossing_same in Hcnt.
  split; [|split; [|split]].
  - intros x. rewrite (handleTransfer_balances e w w' WK Hrun x), Hv.
    repeat case_decide; lia.
  - intros x. rewrite Htot, Hv.
    destruct (decide (x = toHexString (Transfer.to e))); lia.
  - rewrite Hcnt. case_decide; lia.
  - rewrite !positiveTokenHolders_sumOver, Hth.
    rewrite sumOver_insert, indicator_balance, Hbt.
    case_decide.
    + destruct (decide (toHexString (Transfer.from e)
                        = toHexString (Transfer.to e))) as [Heq|Hne].
      * rewrite Heq, lookup_insert_eq. simpl.
        rewrite sumOver_insert, indicator_balance.
        fold (balanceOf w (toHexString (Transfer.to e))).
        rewrite Hbf, Heq. lia.
      * rewrite lookup_insert_ne by done.
        rewrite sumOver_insert, indicator_balance.
        fold (balanceOf w (toHexString (Transfer.from e))).
        fold (balanceOf w (toHexString (Transfer.to e))).
        rewrite Hbf. lia.
    + fold (balanceOf w (toHexString (Transfer.to e))). lia.
Qed.

Lemma handleDelegateVotesChanged_effect e w :
  WellKeyed w →
  let a := toHexString (DelegateVotesChanged.delegate e) in
  let p := DelegateVotesChanged.previousBalance e in
  let n := DelegateVotesChanged.newBalance e in
  ∃ w',
    exec (handleDelegateVotesChanged e) w = Some w'
    ∧ WellKeyed w'
    ∧ delegates w'
      = <[a:=Delegate.set_delegatedVotes (toDecimal n)
               (Delegate.set_delegatedVotesRaw n (Delegate.new a))]>
          (delegates w)
    ∧ Governance.delegatedVotesRaw (governanceOf w')
      = Governance.delegatedVotesRaw (governanceOf w) + (n - p)
    ∧ Governance.delegatedVotes (governanceOf w')
      = toDecimal (Governance.delegatedVotesRaw (governanceOf w) + (n - p))
    ∧ tokenHolders w' = tokenHolders w
    ∧ proposals w' = proposals w
    ∧ votes w' = votes w
    ∧ logs w' = logs w.
Proof.
  intros WK a p n. subst a p n.
  pose proof (governanceOf_id w WK) as Hg.
  destruct WK as (W1 & W2 & W3 & W4 & W5).
  unfold handleDelegateVotesChanged. unfold_store. unfold_consts.
  unfold governanceOf, WellKeyed in *. simpl.
  eexists. split; [reflexivity|]. simpl.
  repeat (case_decide; simpl in * ); rewrite ?Hg, ?lookup_insert_eq; simpl.
  all: repeat split; auto; try lia.
  all: try (apply map_Forall_insert_2; [simpl; done|done]).
Qed.

(** X10. [handleDelegateVotesChanged] saves a freshly constructed
    Delegate: afterwards the delegate has the event's [newBalance] as
    [delegatedVotesRaw] and [delegatedVotes], and its [numberVotes] and
    [tokenHoldersRepresentedAmount] are back at zero whatever they were;
    no other delegate, no holder, proposal or vote is written. *)
Theorem votes_changed_replaces_the_delegate
    (e : DelegateVotesChanged.t) (w : World) :
  WellKeyed w →
  let a := toHexString (DelegateVotesChanged.delegate e) in
  ∃ w' d,
    exec (handleDelegateVotesChanged e) w = Some w'
    ∧ delegates w' !! a = Some d
    ∧ Delegate.delegatedVotesRaw d = DelegateVotesChanged.newBalance e
    ∧ Delegate.delegatedVotes d
      = toDecimal (DelegateVotesChanged.newBalance e)
    ∧ Delegate.numberVotes d = 0
    ∧ Delegate.tokenHoldersRepresentedAmount d = 0
    ∧ (∀ x, x ≠ a → delegates w' !! x = delegates w !! x)
    ∧ tokenHolders w' = tokenHolders w
    ∧ proposals w' = proposals w
    ∧ votes w' = votes w.
Proof.
  intros WK a. subst a.
  destruct (handleDelegateVotesChanged_effect e w WK)
    as (w' & Hrun & _ & Hds & _ & _ & Hth & Hp & Hv & _).
  exists w'. eexists. split; [done|].
  rewrite Hds, lookup_insert_eq. split; [reflexivity|]. simpl.
  repeat split; auto.
  intros x Hx. by rewrite lookup_insert_ne.
Qed.

Lemma votes_follow_store_summed evs : ∀ w,
  WellKeyed w → VotesSummed w → VotesFollowStore evs w →
  length (history (map EvDelegateVotesChanged evs) w) = length evs
  ∧ Forall VotesSummed (history (map EvDelegateVotesChanged evs) w).
Proof.
  induction evs as [|e evs IH]; intros w WK HS Hc.
  { split; [done|constructor]. }
  change (VotesFollowStore (e :: evs) w) with
    (DelegateVotesChanged.previousBalance e
       = delegatedVotesOf w (toHexString (DelegateVotesChanged.delegate e))
     ∧ match exec (handleDelegateVotesChanged e) w with
       | Some w' => VotesFollowStore evs w'
       | None => True
       end) in Hc.
  destruct Hc as (Hprev & Hc).
  destruct (handleDelegateVotesChanged_effect e w WK)
    as (w' & Hrun & WK' & Hds & Hsum & _).
  rewrite map_cons, history_cons.
  change (dispatch (EvDelegateVotesChanged e))
    with (handleDelegateVotesChanged e).
  rewrite Hrun in *.
  assert (VotesSummed w') as HS'.
  { unfold VotesSummed, totalDelegatedVotes in *. rewrite Hsum, HS, Hds.
    rewrite sumOver_insert.
    fold (delegatedVotesOf w (toHexString (DelegateVotesChanged.delegate e))).
    rewrite <- Hprev. simpl. lia. }
  destruct (IH w' WK' HS' Hc) as (Hlen & Hall).
  split; [simpl; by rewrite Hlen | by constructor].
Qed.

(** X11. For every log of DelegateVotesChanged events replayed from the
    empty store in which each event reports as [previousBalance] the
    votes the store holds for its delegate: after each event
    [Governance.delegatedVotesRaw] is the sum of [delegatedVotesRaw] over
    all Delegate entities. *)
Theorem governance_votes_sum_over_delegates
    (evs : list DelegateVotesChanged.t) :
  VotesFollowStore evs emptyWorld →
  length (history (map EvDelegateVotesChanged evs) emptyWorld) = length evs
  ∧ Forall VotesSummed
      (history (map EvDelegateVotesChanged evs) emptyWorld).
Proof.
  apply votes_follow_store_summed; [apply WellKeyed_empty|done].
Qed.

(** X12. [handleDelegateChanged] points the delegator at [toDelegate],
    adds one (in 32-bit arithmetic) to the represented-holders count of
    [toDelegate] and takes one from that of [fromDelegate]; when the two
    are the same address the count ends one higher, the increment being
    saved last from a copy read before the decrement. Votes, vote
    counts, balances and the governance singleton are untouched. *)
Theorem delegate_changed_moves_one_holder
    (e : DelegateChanged.t) (w : World) :
  WellKeyed w →
  let h := toHexString (DelegateChanged.delegator e) in
  let f := toHexString (DelegateChanged.fromDelegate e) in
  let t := toHexString (DelegateChanged.toDelegate e) in
  ∃ w',
    exec (handleDelegateChanged e) w = Some w'
    ∧ TokenHolder.delegate (holderOf w' h) = Some t
    ∧ (∀ x, representedOf w' x
            = if decide (x = t) then i32_add (representedOf w x) 1
              else if decide (x = f) then i32_sub (representedOf w x) 1
              else representedOf w x)
    ∧ (∀ x, delegatedVotesOf w' x = delegatedVotesOf w x)
    ∧ (∀ x, Delegate.numberVotes (delegateOf w' x)
            = Delegate.numberVotes (delegateOf w x))
    ∧ (∀ x, balanceOf w' x = balanceOf w x)
    ∧ governances w' = governances w
    ∧ logs w' = logs w.
Proof.
  intros WK h f t. subst h f t.
  pose proof (holderOf_id w (toHexString (DelegateChanged.delegator e)) WK)
    as Hh.
  pose proof (delegateOf_id w
                (toHexString (DelegateChanged.fromDelegate e)) WK) as Hf.
  pose proof (delegateOf_id w
                (toHexString (DelegateChanged.toDelegate e)) WK) as Ht.
  unfold handleDelegateChanged. unfold_store.
  fold (holderOf w (toHexString (DelegateChanged.delegator e))).
  fold (delegateOf w (toHexString (DelegateChanged.fromDelegate e))).
  fold (delegateOf w (toHexString (DelegateChanged.toDelegate e))).
  eexists. split; [reflexivity|]. simpl. rewrite Hh, Hf, Ht.
  split; [|split; [|split; [|split; [|split]]]]; [| | | | |done].
  - unfold holderOf at 1. simpl. by rewrite lookup_insert_eq.
  - intros x. unfold representedOf, delegateOf at 1. simpl.
    destruct (decide (x = toHexString (DelegateChanged.toDelegate e)))
      as [->|Hxt].
    { by rewrite lookup_insert_eq. }
    rewrite lookup_insert_ne by done.
    destruct (decide (x = toHexString (DelegateChanged.fromDelegate e)))
      as [->|Hxf].
    { by rewrite lookup_insert_eq. }
    by rewrite lookup_insert_ne.
  - intros x. unfold delegatedVotesOf at 1. simpl.
    destruct (decide (toHexString (DelegateChanged.toDelegate e) = x))
      as [<-|Hxt].
    { rewrite lookup_insert_eq. simpl. unfold delegatedVotesOf, delegateOf.
      by destruct (delegates w !! _). }
    rewrite lookup_insert_ne by done.
    destruct (decide (toHexString (DelegateChanged.fromDelegate e) = x))
      as [<-|Hxf].
    { rewrite lookup_insert_eq. simpl. unfold delegatedVotesOf, delegateOf.
      by destruct (delegates w !! _). }
    by rewrite lookup_insert_ne.
  - intros x. unfold delegateOf at 1. simpl.
    destruct (decide (toHexString (DelegateChanged.toDelegate e) = x))
      as [<-|Hxt].
    { by rewrite lookup_insert_eq. }
    rewrite lookup_insert_ne by done.
    destruct (decide (toHexString (DelegateChanged.fromDelegate e) = x))
      as [<-|Hxf].
    { by rewrite lookup_insert_eq. }
    by rewrite lookup_insert_ne.
  - intros x. unfold balanceOf at 1. simpl.
    destruct (decide (toHexString (DelegateChanged.delegator e) = x))
      as [<-|Hx].
    { rewrite lookup_insert_eq. simpl. apply holderOf_balance. }
    by rewrite lookup_insert_ne.
Qed.

Lemma handleVoteCast_effect e w :
  WellKeyed w →
  let pid := toString (VoteCast.proposalId e) in
  let a := toHexString (VoteCast.voter e) in
  ∃ w',
    exec (handleVoteCast e) w = Some w'
    ∧ WellKeyed w'
    ∧ proposals w' = <[pid:=castOn (VoteCast.support e) (proposalOf w pid)]>
                       (proposals w)
    ∧ votes w' = <[Vote.id (voteOf e):=voteOf e]> (votes w)
    ∧ delegates w'
      = <[a:=Delegate.set_numberVotes 1 (Delegate.new a)]> (delegates w)
    ∧ tokenHolders w' = tokenHolders w
    ∧ governances w' = governances w
    ∧ logs w' = logs w.
Proof.
  intros WK pid a. subst pid a.
  pose proof (proposalOf_id w (toString (VoteCast.proposalId e)) WK) as Hid.
  destruct WK as (W1 & W2 & W3 & W4 & W5).
  unfold handleVoteCast. unfold_store. unfold_consts.
  unfold castOn, voteOf, proposalOf, WellKeyed in *. simpl.
  eexists. split; [reflexivity|]. simpl.
  repeat (case_decide; simpl in * ); rewrite ?Hid.
  all: repeat split; auto.
  all: try (apply map_Forall_insert_2; [simpl; done|done]).
Qed.

(** X13. [handleVoteCast] adds one to [againstVotes] exactly when the
    support code is 0, to [forVotes] exactly when it is 1, to
    [abstainVotes] exactly when it is 2; the weight of the vote plays no
    part. *)
Theorem vote_cast_counts_one_tally (e : VoteCast.t) (w : World) :
  WellKeyed w →
  let pid := toString (VoteCast.proposalId e) in
  let s := VoteCast.support e in
  ∃ w' p,
    exec (handleVoteCast e) w = Some w'
    ∧ proposals w' !! pid = Some p
    ∧ Proposal.againstVotes p
      = Proposal.againstVotes (proposalOf w pid) + indicator (s = 0)
    ∧ Proposal.forVotes p
      = Proposal.forVotes (proposalOf w pid) + indicator (s = 1)
    ∧ Proposal.abstainVotes p
      = Proposal.abstainVotes (proposalOf w pid) + indicator (s = 2).
Proof.
  intros WK pid s. subst pid s.
  destruct (handleVoteCast_effect e w WK) as (w' & Hrun & _ & Hp & _).
  exists w'. eexists. split; [done|].
  rewrite Hp, lookup_insert_eq. split; [reflexivity|].
  unfold castOn, indicator, BIGINT_ONE.
  repeat (case_decide; simpl); repeat split; lia.
Qed.

(** X14. [handleVoteCast] turns the state Pending into Active and keeps
    every other state (Canceled, Queued, Executed, Active or unset) as
    it is; proposer, [executionETA] and the block window are kept. *)
Theorem vote_cast_promotes_only_pending (e : VoteCast.t) (w : World) :
  WellKeyed w →
  let pid := toString (VoteCast.proposalId e) in
  ∃ w' p,
    exec (handleVoteCast e) w = Some w'
    ∧ proposals w' !! pid = Some p
    ∧ Proposal.state p
      = (if decide (Proposal.state (proposalOf w pid)
                    = Some PROPOSAL_STATE_PENDING)
         then Some PROPOSAL_STATE_ACTIVE
         else Proposal.state (proposalOf w pid))
    ∧ Proposal.proposer p = Proposal.proposer (proposalOf w pid)
    ∧ Proposal.executionETA p = Proposal.executionETA (proposalOf w pid)
    ∧ Proposal.startBlock p = Proposal.startBlock (proposalOf w pid)
    ∧ Proposal.endBlock p = Proposal.endBlock (proposalOf w pid).
Proof.
  intros WK pid. subst pid.
  destruct (handleVoteCast_effect e w WK) as (w' & Hrun & _ & Hp & _).
  exists w'. eexists. split; [done|].
  rewrite Hp, lookup_insert_eq. split; [reflexivity|].
  unfold castOn.
  repeat (case_decide; simpl); repeat split; done.
Qed.



(** X16. [handleVoteCast] leaves the voter with zero [delegatedVotesRaw]
    without touching the governance singleton: the number of delegates
    with positive votes drops by one when the voter had positive votes,
    [currentDelegates] and [Governance.delegatedVotesRaw] stay. *)
Theorem vote_cast_drops_voter_from_delegate_count
    (e : VoteCast.t) (w : World) :
  WellKeyed w →
  let a := toHexString (VoteCast.voter e) in
  ∃ w',
    exec (handleVoteCast e) w = Some w'
    ∧ delegatedVotesOf w' a = 0
    ∧ positiveDelegates w'
      = positiveDelegates w - indicator (0 < delegatedVotesOf w a)
    ∧ Governance.currentDelegates (governanceOf w')
      = Governance.currentDelegates (governanceOf w)
    ∧ Governance.delegatedVotesRaw (governanceOf w')
      = Governance.delegatedVotesRaw (governanceOf w).
Proof.
  intros WK a. subst a.
  destruct (handleVoteCast_effect e w WK)
    as (w' & Hrun & _ & _ & _ & Hd & _ & Hg & _).
  exists w'. split; [done|].
  split; [|split].
  - unfold delegatedVotesOf. by rewrite Hd, lookup_insert_eq.
  - rewrite !positiveDelegates_sumOver, Hd.
    rewrite sumOver_insert, indicator_votes.
    fold (delegatedVotesOf w (toHexString (VoteCast.voter e))).
    simpl. unfold indicator at 3. rewrite decide_False by lia. lia.
  - unfold governanceOf. by rewrite Hg.
Qed.

(** X17. [handleProposalCanceled] sets the state Canceled whatever the
    state was, records the event's block number and timestamp as
    cancellation block and time, keeps proposer, tallies and execution
    fields, and adds one to [proposalsCanceled] only. *)
Theorem proposal_canceled_from_any_state
    (e : ProposalCanceled.t) (w : World) :
  WellKeyed w →
  let pid := toString (ProposalCanceled.proposalId e) in
  let ctx := ProposalCanceled.context e in
  ∃ w' p,
    exec (handleProposalCanceled e) w = Some w'
    ∧ proposals w' !! pid = Some p
    ∧ Proposal.state p = Some PROPOSAL_STATE_CANCELED
    ∧ Proposal.cancellationBlock p = Some (blockNumber ctx)
    ∧ Proposal.cancellationTime p = Some (blockTimestamp ctx)
    ∧ Proposal.executionETA p = Proposal.executionETA (proposalOf w pid)
    ∧ Proposal.executionBlock p = Proposal.executionBlock (proposalOf w pid)
    ∧ Proposal.proposer p = Proposal.proposer (proposalOf w pid)
    ∧ Proposal.againstVotes p = Proposal.againstVotes (proposalOf w pid)
    ∧ Proposal.forVotes p = Proposal.forVotes (proposalOf w pid)
    ∧ Proposal.abstainVotes p = Proposal.abstainVotes (proposalOf w pid)
    ∧ Governance.proposalsCanceled (governanceOf w')
      = Governance.proposalsCanceled (governanceOf w) + 1
    ∧ Governance.proposalsQueued (governanceOf w')
      = Governance.proposalsQueued (governanceOf w)
    ∧ Governance.proposalsExecuted (governanceOf w')
      = Governance.proposalsExecuted (governanceOf w).
Proof.
  intros WK pid ctx. subst pid ctx.
  pose proof (proposalOf_id w (toString (ProposalCanceled.proposalId e)) WK)
    as Hid.
  pose proof (governanceOf_id w WK) as Hg.
  unfold_handlers. unfold_store. unfold_consts.
  unfold proposalOf, governanceOf in *. simpl.
  eexists _, _. split; [reflexivity|]. simpl.
  rewrite Hid, Hg, !lookup_insert_eq. simpl. repeat split; reflexivity.
Qed.

(** X18. [handleProposalCreated] saves the proposal with the payload of
    the event, the event's block as creation block and time, the state
    Active when the event's block number has reached [startBlock] and
    Pending otherwise; each of the three tallies and the execution and
    cancellation fields it read are kept as they were,
    [Governance.proposals] grows by one and nothing is logged. *)
Theorem proposal_created_fills_the_proposal
    (e : ProposalCreated.t) (w : World) :
  WellKeyed w →
  let pid := toString (ProposalCreated.proposalId e) in
  let ctx := ProposalCreated.context e in
  ∃ w' p,
    exec (handleProposalCreated e) w = Some w'
    ∧ proposals w' !! pid = Some p
    ∧ Proposal.state p
      = (if decide (ProposalCreated.startBlock e ≤ blockNumber ctx)
         then Some PROPOSAL_STATE_ACTIVE else Some PROPOSAL_STATE_PENDING)
    ∧ Proposal.proposer p = Some (toHexString (ProposalCreated.proposer e))
    ∧ Proposal.targets p = map toHexString (ProposalCreated.targets e)
    ∧ Proposal.values p = ProposalCreated.values e
    ∧ Proposal.signatures p = ProposalCreated.signatures e
    ∧ Proposal.calldatas p = ProposalCreated.calldatas e
    ∧ Proposal.creationBlock p = blockNumber ctx
    ∧ Proposal.creationTime p = blockTimestamp ctx
    ∧ Proposal.startBlock p = ProposalCreated.startBlock e
    ∧ Proposal.endBlock p = ProposalCreated.endBlock e
    ∧ Proposal.description p = ProposalCreated.description e
    ∧ Proposal.againstVotes p = Proposal.againstVotes (proposalOf w pid)
    ∧ Proposal.forVotes p = Proposal.forVotes (proposalOf w pid)
    ∧ Proposal.abstainVotes p = Proposal.abstainVotes (proposalOf w pid)
    ∧ Proposal.executionETA p = Proposal.executionETA (proposalOf w pid)
    ∧ Proposal.executionBlock p = Proposal.executionBlock (proposalOf w pid)
    ∧ Proposal.executionTime p = Proposal.executionTime (proposalOf w pid)
    ∧ Proposal.cancellationBlock p
      = Proposal.cancellationBlock (proposalOf w pid)
    ∧ Proposal.cancellationTime p
      = Proposal.cancellationTime (proposalOf w pid)
    ∧ Governance.proposals (governanceOf w')
      = Governance.proposals (governanceOf w) + 1
    ∧ logs w' = logs w.
Proof.
  intros WK pid ctx. subst pid ctx.
  pose proof (proposalOf_id w (toString (ProposalCreated.proposalId e)) WK)
    as Hid.
  pose proof (delegateOf_id w (toHexString (ProposalCreated.proposer e)) WK)
    as Hd.
  pose proof (governanceOf_id w WK) as Hg.
  unfold_handlers. unfold_store. unfold_consts.
  unfold proposalOf, delegateOf, governanceOf, talliesOf in *. simpl.
  eexists _, _. split; [reflexivity|]. simpl.
  rewrite Hid, Hg, Hd, !lookup_insert_eq. simpl.
  repeat split; try reflexivity.
  repeat case_decide; try reflexivity; lia.
Qed.

(** X19. [handleProposalExecuted] does not look at the proposal's
    state: for any store it sets Executed, clears [executionETA], records
    execution block and time, keeps the proposer, the cancellation fields
    and each of the three tallies as they were, takes one from
    [proposalsQueued] and adds one to [proposalsExecuted]. *)
Theorem proposal_executed_whatever_the_state
    (e : ProposalExecuted.t) (w : World) :
  WellKeyed w →
  let pid := toString (ProposalExecuted.proposalId e) in
  let ctx := ProposalExecuted.context e in
  ∃ w' p,
    exec (handleProposalExecuted e) w = Some w'
    ∧ proposals w' !! pid = Some p
    ∧ Proposal.state p = Some PROPOSAL_STATE_EXECUTED
    ∧ Proposal.executionETA p = None
    ∧ Proposal.executionBlock p = Some (blockNumber ctx)
    ∧ Proposal.executionTime p = Some (blockTimestamp ctx)
    ∧ Proposal.cancellationBlock p
      = Proposal.cancellationBlock (proposalOf w pid)
    ∧ Proposal.cancellationTime p
      = Proposal.cancellationTime (proposalOf w pid)
    ∧ Proposal.proposer p = Proposal.proposer (proposalOf w pid)
    ∧ Proposal.againstVotes p = Proposal.againstVotes (proposalOf w pid)
    ∧ Proposal.forVotes p = Proposal.forVotes (proposalOf w pid)
    ∧ Proposal.abstainVotes p = Proposal.abstainVotes (proposalOf w pid)
    ∧ Governance.proposalsQueued (governanceOf w')
      = Governance.proposalsQueued (governanceOf w) - 1
    ∧ Governance.proposalsExecuted (governanceOf w')
      = Governance.proposalsExecuted (governanceOf w) + 1
    ∧ logs w' = logs w.
Proof.
  intros WK pid ctx. subst pid ctx.
  pose proof (proposalOf_id w (toString (ProposalExecuted.proposalId e)) WK)
    as Hid.
  pose proof (governanceOf_id w WK) as Hg.
  unfold_handlers. unfold_store. unfold_consts.
  unfold proposalOf, governanceOf, talliesOf in *. simpl.
  eexists _, _. split; [reflexivity|]. simpl.
  rewrite Hid, Hg, !lookup_insert_eq. simpl. repeat split; reflexivity.
Qed.

Lemma sumDeltas_app calls c :
  sumDeltas (calls ++ [c]) = sumDeltas calls + c.2.
Proof.
  unfold sumDeltas. induction calls as [|x calls IH]; simpl; [lia|].
  rewrite IH. lia.
Qed.

(** X21. With the recording collaborator: each of the three handlers
    appends exactly one call to the record, with the event's context and
    pool id and with the amount for a Deposit, the negated amount for a
    Withdraw and for an EmergencyWithdraw; so a Deposit followed by a
    Withdraw, or by an EmergencyWithdraw, of the same amount records two
    calls whose deltas cancel. *)
Theorem deposit_then_withdraw_cancel
    (d : MasterChef.Deposit) (x : MasterChef.Withdraw)
    (y : MasterChef.EmergencyWithdraw) (calls : MasterChef.CallLog) :
  MasterChef.withdraw_amount x = MasterChef.deposit_amount d →
  MasterChef.emergency_amount y = MasterChef.deposit_amount d →
  MasterChef.handleDeposit d calls
    = calls ++ [(MasterChef.deposit_context d, MasterChef.deposit_pid d,
                 MasterChef.deposit_amount d)]
  ∧ MasterChef.handleWithdraw x calls
    = calls ++ [(MasterChef.withdraw_context x, MasterChef.withdraw_pid x,
                 - MasterChef.withdraw_amount x)]
  ∧ MasterChef.handleEmergencyWithdraw y calls
    = calls ++ [(MasterChef.emergency_context y, MasterChef.emergency_pid y,
                 - MasterChef.emergency_amount y)]
  ∧ MasterChef.handleWithdraw x (MasterChef.handleDeposit d calls)
    = calls ++ [(MasterChef.deposit_context d, MasterChef.deposit_pid d,
                 MasterChef.deposit_amount d);
                (MasterChef.withdraw_context x, MasterChef.withdraw_pid x,
                 - MasterChef.deposit_amount d)]
  ∧ MasterChef.handleEmergencyWithdraw y (MasterChef.handleDeposit d calls)
    = calls ++ [(MasterChef.deposit_context d, MasterChef.deposit_pid d,
                 MasterChef.deposit_amount d);
                (MasterChef.emergency_context y, MasterChef.emergency_pid y,
                 - MasterChef.deposit_amount d)]
  ∧ sumDeltas (MasterChef.handleWithdraw x (MasterChef.handleDeposit d calls))
    = sumDeltas calls
  ∧ sumDeltas (MasterChef.handleEmergencyWithdraw y
                 (MasterChef.handleDeposit d calls))
    = sumDeltas calls.
Proof.
  intros Hx Hy.
  unfold MasterChef.handleWithdraw, MasterChef.handleEmergencyWithdraw,
    MasterChef.handleDeposit, MasterChef.handleReward,
    MasterChef.recordingReward, MasterChef.BIGINT_NEG_ONE.
  rewrite !sumDeltas_app. simpl. rewrite Hx, Hy.
  replace (MasterChef.deposit_amount d * -1)
    with (- MasterChef.deposit_amount d) by lia.
  rewrite <- !app_assoc. simpl.
  repeat split; try reflexivity; lia.
Qed.

(** X1. For every log of Transfer events without self-transfers, replayed
    from the empty store: the replay completes and the balances of all
    TokenHolder entities sum to the minted supply, the values sent from
    the zero address (negative balances included). *)
Theorem supply_is_minted_without_self_transfers (evs : list Transfer.t) :
  Forall (λ e, ¬ SelfTransfer e) evs →
  ∃ w, processEvents (map EvTransfer evs) emptyWorld = Some w
       ∧ totalBalance w = mintedSupply evs.
Proof.
  intros H.
  destruct (supply_conserved_without_self_transfers evs emptyWorld
              WellKeyed_empty H) as (w & Hrun & _ & Hsum).
  exists w. split; [done|]. rewrite Hsum.
  assert (totalBalance emptyWorld = 0) as -> by reflexivity. lia.
Qed.

(** X3. The balances after a Transfer, for any store: [to] holds what it
    held plus the value (also when [from] is the same address); a
    non-zero [from] other than [to] holds what it held minus the value;
    every other address, the zero address of a mint included, holds what
    it held. *)
Theorem transfer_balances_closed_form (e : Transfer.t) (w : World) :
  WellKeyed w →
  ∃ w',
    exec (handleTransfer e) w = Some w'
    ∧ ∀ x, balanceOf w' x
           = if decide (x = toHexString (Transfer.to e))
             then balanceOf w x + Transfer.value e
             else if decide (x = toHexString (Transfer.from e)
                             ∧ x ≠ ZERO_ADDRESS)
             then balanceOf w x - Transfer.value e
             else balanceOf w x.
Proof.
  intros WK. destruct (handleTransfer_total e w) as [w' Hrun].
  exists w'. split; [done|]. by apply handleTransfer_balances.
Qed.

(** X7. A Transfer adds its value to the [totalTokensHeldRaw] of [to] and
    changes that of no other address: sending never lowers, and never
    raises, the sender's total. *)
Theorem transfer_credits_total_held (e : Transfer.t) (w : World) :
  WellKeyed w →
  ∃ w',
    exec (handleTransfer e) w = Some w'
    ∧ ∀ x, totalHeldOf w' x
           = if decide (x = toHexString (Transfer.to e))
             then totalHeldOf w x + Transfer.value e
             else totalHeldOf w x.
Proof. apply handleTransfer_totals. Qed.

(** ** Worked instances *)

Lemma supply_is_minted_witness :
  ∃ w, processEvents (map EvTransfer sampleTransfers) emptyWorld = Some w
       ∧ totalBalance w = mintedSupply sampleTransfers.
Proof.
  apply (supply_is_minted_without_self_transfers sampleTransfers).
  by_evaluation.
Defined.


Lemma transfer_balances_witness :
  ∃ w', exec (handleTransfer (transfer alice bob 30)) fundedWorld = Some w'
        ∧ balanceOf w' alice = 70
        ∧ balanceOf w' bob = 30
        ∧ balanceOf w' carol = 0.
Proof.
  destruct (transfer_balances_closed_form (transfer alice bob 30) fundedWorld)
    as (w' & Hrun & Hb).
  - by_evaluation.
  - exists w'. split; [exact Hrun|]. rewrite !Hb.
    repeat split; vm_compute; reflexivity.
Defined.

Lemma transfer_there_and_back_witness :
  ∃ w', processEvents [EvTransfer (transfer alice bob 30);
                       EvTransfer (transfer bob alice 30)] fundedWorld
          = Some w'
        ∧ balanceOf w' alice = 100
        ∧ balanceOf w' bob = 0.
Proof.
  destruct (transfer_there_and_back_restores_balances
              (transfer alice bob 30) (transfer bob alice 30) fundedWorld)
    as (w' & Hrun & Hb).
  - by_evaluation.
  - by_evaluation.
  - by_evaluation.
  - by_evaluation.
  - reflexivity.
  - reflexivity.
  - reflexivity.
  - exists w'. split; [exact Hrun|]. rewrite !Hb.
    split; vm_compute; reflexivity.
Defined.

Lemma transfer_reports_witness :
  ∃ w', exec (handleTransfer (transfer alice bob 30)) fundedWorld = Some w'
        ∧ logs w' = [].
Proof.
  destruct (transfer_reports_exactly_overdrafts
              (transfer alice bob 30) fundedWorld) as (w' & Hrun & Hlog).
  - by_evaluation.
  - exists w'. split; [exact Hrun|]. rewrite Hlog. vm_compute. reflexivity.
Defined.

Lemma transfer_writes_witness :
  ∃ w', exec (handleTransfer (transfer alice bob 30)) fundedWorld = Some w'
        ∧ tokenHolders w' !! carol = None
        ∧ delegates w' = ∅.
Proof.
  destruct (transfer_writes_only_its_two_holders
              (transfer alice bob 30) fundedWorld)
    as (w' & Hrun & Hother & _ & Hd & _).
  - by_evaluation.
  - exists w'. split; [exact Hrun|]. split.
    + rewrite Hother; [reflexivity | by_evaluation | by_evaluation].
    + exact Hd.
Defined.

Lemma transfer_credits_total_witness :
  ∃ w', exec (handleTransfer (transfer alice bob 30)) fundedWorld = Some w'
        ∧ totalHeldOf w' bob = 30
        ∧ totalHeldOf w' alice = 0.
Proof.
  destruct (transfer_credits_total_held (transfer alice bob 30) fundedWorld)
    as (w' & Hrun & Ht).
  - by_evaluation.
  - exists w'. split; [exact Hrun|]. rewrite !Ht.
    split; vm_compute; reflexivity.
Defined.

Lemma balance_within_total_witness :
  length (history sampleMixed emptyWorld) = length sampleMixed
  ∧ Forall BalanceWithinTotal (history sampleMixed emptyWorld).
Proof.
  apply (balance_never_exceeds_total_held sampleMixed).
  by_evaluation.
Defined.

Lemma zero_value_transfer_witness :
  ∃ w', exec (handleTransfer (transfer alice bob 0)) fundedWorld = Some w'
        ∧ balanceOf w' alice = 100
        ∧ positiveTokenHolders w' = 1.
Proof.
  destruct (zero_value_transfer_changes_no_count
              (transfer alice bob 0) fundedWorld)
    as (w' & Hrun & Hb & _ & _ & Hpos).
  - by_evaluation.
  - reflexivity.
  - exists w'. split; [exact Hrun|]. rewrite Hb, Hpos.
    split; vm_compute; reflexivity.
Defined.

Lemma votes_changed_replaces_witness :
  ∃ w' d,
    exec (handleDelegateVotesChanged (votesChanged alice 500 600)) delegateWorld
      = Some w'
    ∧ delegates w' !! alice = Some d
    ∧ Delegate.delegatedVotesRaw d = 600
    ∧ Delegate.numberVotes d = 0
    ∧ Delegate.tokenHoldersRepresentedAmount d = 0.
Proof.
  destruct (votes_changed_replaces_the_delegate
              (votesChanged alice 500 600) delegateWorld)
    as (w' & d & Hrun & Hd & Hraw & _ & Hn & Hr & _).
  - by_evaluation.
  - exists w', d. repeat split; assumption.
Defined.

Lemma governance_votes_sum_witness :
  length (history (map EvDelegateVotesChanged followingVotes) emptyWorld)
    = length followingVotes
  ∧ Forall VotesSummed
      (history (map EvDelegateVotesChanged followingVotes) emptyWorld).
Proof.
  apply (governance_votes_sum_over_delegates followingVotes).
  vm_compute. repeat split; reflexivity.
Defined.

Lemma delegate_changed_witness :
  ∃ w', exec (handleDelegateChanged sampleDelegation) emptyWorld = Some w'
        ∧ TokenHolder.delegate (holderOf w' alice) = Some bob
        ∧ representedOf w' bob = 1
        ∧ representedOf w' ZERO_ADDRESS = -1.
Proof.
  destruct (delegate_changed_moves_one_holder sampleDelegation emptyWorld)
    as (w' & Hrun & Hd & Hr & _).
  - by_evaluation.
  - exists w'. split; [exact Hrun|]. split; [exact Hd|]. rewrite !Hr.
    split; vm_compute; reflexivity.
Defined.

Lemma vote_cast_tally_witness :
  ∃ w' p,
    exec (handleVoteCast (voteCast alice 1)) pendingWorld = Some w'
    ∧ proposals w' !! "42" = Some p
    ∧ Proposal.againstVotes p = 0
    ∧ Proposal.forVotes p = 3
    ∧ Proposal.abstainVotes p = 0.
Proof.
  apply (vote_cast_counts_one_tally (voteCast alice 1) pendingWorld).
  by_evaluation.
Defined.

Lemma vote_cast_promotes_witness :
  ∃ w' p,
    exec (handleVoteCast (voteCast alice 1)) pendingWorld = Some w'
    ∧ proposals w' !! "42" = Some p
    ∧ Proposal.state p = Some PROPOSAL_STATE_ACTIVE.
Proof.
  destruct (vote_cast_promotes_only_pending (voteCast alice 1) pendingWorld)
    as (w' & p & Hrun & Hp & Hst & _).
  - by_evaluation.
  - exists w', p. split; [exact Hrun|]. split; [exact Hp|]. exact Hst.
Defined.


Lemma vote_cast_drops_witness :
  positiveDelegates delegateWorld = 1
  ∧ ∃ w', exec (handleVoteCast (voteCast alice 1)) delegateWorld = Some w'
          ∧ positiveDelegates w' = 0
          ∧ Governance.currentDelegates (governanceOf w') = 0.
Proof.
  split; [reflexivity|].
  destruct (vote_cast_drops_voter_from_delegate_count
              (voteCast alice 1) delegateWorld)
    as (w' & Hrun & _ & Hpos & Hcur & _).
  - by_evaluation.
  - exists w'. split; [exact Hrun|]. rewrite Hpos, Hcur.
    split; vm_compute; reflexivity.
Defined.

Lemma proposal_canceled_witness :
  ∃ w' p,
    exec (handleProposalCanceled sampleCanceled) pendingWorld = Some w'
    ∧ proposals w' !! "42" = Some p
    ∧ Proposal.state p = Some PROPOSAL_STATE_CANCELED
    ∧ Proposal.cancellationBlock p = Some 100
    ∧ Proposal.forVotes p = 2
    ∧ Governance.proposalsCanceled (governanceOf w') = 1.
Proof.
  destruct (proposal_canceled_from_any_state sampleCanceled pendingWorld)
    as (w' & p & Hrun & Hp & Hst & Hblk & _ & _ & _ & _ & _ & Hfor & _
        & Hcnt & _).
  - by_evaluation.
  - exists w', p. repeat split; assumption.
Defined.

Lemma proposal_created_witness :
  ∃ w' p,
    exec (handleProposalCreated sampleProposal) pendingWorld = Some w'
    ∧ proposals w' !! "42" = Some p
    ∧ Proposal.state p = Some PROPOSAL_STATE_PENDING
    ∧ Proposal.proposer p = Some alice
    ∧ Proposal.againstVotes p = 0
    ∧ Proposal.forVotes p = 2
    ∧ Proposal.abstainVotes p = 0.
Proof.
  destruct (proposal_created_fills_the_proposal sampleProposal pendingWorld)
    as (w' & p & Hrun & Hp & Hst & Hpr & _ & _ & _ & _ & _ & _ & _ & _ & _
        & Ha & Hf & Hb & _).
  - by_evaluation.
  - exists w', p. repeat split; assumption.
Defined.

Lemma proposal_executed_witness :
  ∃ w' p,
    exec (handleProposalExecuted sampleExecuted) pendingWorld = Some w'
    ∧ proposals w' !! "42" = Some p
    ∧ Proposal.state p = Some PROPOSAL_STATE_EXECUTED
    ∧ Proposal.againstVotes p = 0
    ∧ Proposal.forVotes p = 2
    ∧ Proposal.abstainVotes p = 0
    ∧ Governance.proposalsQueued (governanceOf w') = -1.
Proof.
  destruct (proposal_executed_whatever_the_state sampleExecuted pendingWorld)
    as (w' & p & Hrun & Hp & Hst & _ & _ & _ & _ & _ & _ & Ha & Hf & Hb
        & Hq & _).
  - by_evaluation.
  - exists w', p. repeat split; assumption.
Defined.

Lemma lifecycle_counters_witness :
  ∃ w,
    processEvents sampleLifecycle emptyWorld = Some w
    ∧ Governance.proposals (governanceOf w) = 1
    ∧ Governance.proposalsCanceled (governanceOf w) = 1
    ∧ Governance.proposalsQueued (governanceOf w) = 0
    ∧ Governance.proposalsExecuted (governanceOf w) = 1.
Proof.
  apply (lifecycle_counters_count_events sampleLifecycle).
  by_evaluation.
Defined.

Lemma deposit_then_withdraw_witness :
  MasterChef.handleWithdraw sampleWithdraw
    (MasterChef.handleDeposit sampleDeposit [])
    = [(sampleContext, 3, 40); (sampleContext, 3, -40)]
  ∧ MasterChef.handleEmergencyWithdraw sampleEmergency
      (MasterChef.handleDeposit sampleDeposit [])
    = [(sampleContext, 3, 40); (sampleContext, 3, -40)]
  ∧ sumDeltas (MasterChef.handleWithdraw sampleWithdraw
                 (MasterChef.handleDeposit sampleDeposit []))
    = 0
  ∧ sumDeltas (MasterChef.handleEmergencyWithdraw sampleEmergency
                 (MasterChef.handleDeposit sampleDeposit []))
    = 0.
Proof.
  destruct (deposit_then_withdraw_cancel sampleDeposit sampleWithdraw
              sampleEmergency []) as (_ & _ & _ & Hw & He & Hsw & Hse).
  - reflexivity.
  - reflexivity.
  - split; [exact Hw|]. split; [exact He|]. split; [exact Hsw | exact Hse].
Defined.
